(** * Study-Buddy-RAG: a shallow embedding of the retrieval and quiz core

    The Python sources embedded here are
    [src/document_processor.py], [src/difficulty_assessor.py],
    [src/quiz_generator.py], [src/rag_engine.py] and the constants of
    [config.py].  Every definition keeps the name of the Python function
    it embeds.

    Conventions of the embedding:
    - a Python [str] is a [string] of 8-bit characters; case mapping and
      character classes are the ASCII ones;
    - a Python [int] received from a caller is a [Z]; a length or a
      counter is a [nat];
    - a Python [float] is an exact rational [Q] (no rounding);
    - an exception is a [Raise] in the [PyResult] monad;
    - the [random] module draws from an explicit entropy tape;
    - ChromaDB and NLTK are collaborators outside the repository: each
      appears as an interface ([VectorStore.Chroma],
      [DifficultyAssessor.Punkt]) that the statements quantify over. *)

From Stdlib Require Import ZArith QArith Qminmax Lia Lqa Ascii.
From stdpp Require Import base list strings gmap pretty sorting.

Local Open Scope Z_scope.

(** ** The Python runtime the sources rely on *)

Module Py.

(** *** Exceptions *)

Inductive exn : Type :=
| ValueError
| IndexError
| KeyError
| ZeroDivisionError
| CollaboratorError (msg : string).

Inductive PyResult (A : Type) : Type :=
| Ok (a : A)
| Raise (e : exn).
Global Arguments Ok {A} a.
Global Arguments Raise {A} e.

Definition bind {A B} (m : PyResult A) (k : A → PyResult B) : PyResult B :=
  match m with
  | Ok a => k a
  | Raise e => Raise e
  end.

(** *** Characters *)

Definition code (c : ascii) : N := N_of_ascii c.

Definition between (lo hi : N) (c : ascii) : bool :=
  ((lo <=? code c) && (code c <=? hi))%N.

(** [str.isspace] on one character: TAB..CR, FS..US and the blank. *)
Definition isspace (c : ascii) : bool :=
  between 9 13 c || between 28 32 c.

Definition isupper (c : ascii) : bool := between 65 90 c.
Definition islower (c : ascii) : bool := between 97 122 c.
Definition isdigit (c : ascii) : bool := between 48 57 c.

(** The class [\w] of the [re] module. *)
Definition isword (c : ascii) : bool :=
  isupper c || islower c || isdigit c || (code c =? 95)%N.

Definition lower_char (c : ascii) : ascii :=
  if isupper c then ascii_of_N (code c + 32) else c.
Definition upper_char (c : ascii) : ascii :=
  if islower c then ascii_of_N (code c - 32) else c.

(** *** Strings *)

Fixpoint map_chars (f : ascii → ascii) (s : string) : string :=
  match s with
  | EmptyString => EmptyString
  | String c s' => String (f c) (map_chars f s')
  end.

Definition lower : string → string := map_chars lower_char.
Definition upper : string → string := map_chars upper_char.

Definition len (s : string) : nat := String.length s.

(** [s[:n]] for [0 <= n]. *)
Fixpoint prefix_of (n : nat) (s : string) : string :=
  match n, s with
  | S n', String c s' => String c (prefix_of n' s')
  | _, _ => EmptyString
  end.

(** [s.startswith(p)] *)
Fixpoint startswith (p s : string) : bool :=
  match p, s with
  | EmptyString, _ => true
  | String a p', String b s' => bool_decide (a = b) && startswith p' s'
  | String _ _, EmptyString => false
  end.

Fixpoint skip (n : nat) (s : string) : string :=
  match n, s with
  | S n', String _ s' => skip n' s'
  | _, _ => s
  end.

(** [p in s] *)
Fixpoint contains (p s : string) : bool :=
  startswith p s ||
  match s with
  | EmptyString => false
  | String _ s' => contains p s'
  end.

(** [s.endswith(p)] for a one-character [p]. *)
Fixpoint endswith_char (c : ascii) (s : string) : bool :=
  match s with
  | EmptyString => false
  | String a EmptyString => bool_decide (a = c)
  | String _ s' => endswith_char c s'
  end.

(** [s.replace(old, new, 1)] for a non-empty [old]: the leftmost
    occurrence is rewritten. *)
Fixpoint replace_first (old new s : string) : string :=
  if startswith old s then new +:+ skip (len old) s
  else match s with
       | EmptyString => EmptyString
       | String c s' => String c (replace_first old new s')
       end.

(** [s.replace(old, new)] for a non-empty [old]: occurrences are
    rewritten left to right without overlap.  [fuel] bounds the number
    of characters still to scan. *)
Fixpoint replace_go (fuel : nat) (old new s : string) : string :=
  match fuel with
  | O => s
  | S fuel' =>
      if startswith old s
      then new +:+ replace_go fuel' old new (skip (len old) s)
      else match s with
           | EmptyString => EmptyString
           | String c s' => String c (replace_go fuel' old new s')
           end
  end.

Definition replace (old new s : string) : string :=
  replace_go (S (len s)) old new s.

(** [sep.join(parts)] *)
Fixpoint join (sep : string) (parts : list string) : string :=
  match parts with
  | [] => EmptyString
  | [p] => p
  | p :: rest => p +:+ sep +:+ join sep rest
  end.

(** [s.split()]: maximal runs of non-blank characters. *)
Fixpoint split (s : string) : list string :=
  match s with
  | EmptyString => []
  | String c rest =>
      if isspace c then split rest
      else match rest with
           | EmptyString => [String c EmptyString]
           | String d _ =>
               if isspace d then String c EmptyString :: split rest
               else match split rest with
                    | w :: ws => String c w :: ws
                    | [] => [String c EmptyString]
                    end
           end
  end.

(** [s.split(sep)] for a one-character separator. *)
Fixpoint split_on (sep : ascii) (s : string) : list string :=
  match s with
  | EmptyString => [EmptyString]
  | String c rest =>
      if bool_decide (c = sep) then EmptyString :: split_on sep rest
      else match split_on sep rest with
           | w :: ws => String c w :: ws
           | [] => [String c EmptyString]
           end
  end.

Fixpoint lstrip (s : string) : string :=
  match s with
  | String c s' => if isspace c then lstrip s' else s
  | EmptyString => EmptyString
  end.

(** [s.strip()] *)
Definition strip (s : string) : string :=
  String.rev (lstrip (String.rev (lstrip s))).

(** [re.findall(r'\b\w+\b', s)]: the maximal runs of word characters. *)
Fixpoint findall_words (s : string) : list string :=
  match s with
  | EmptyString => []
  | String c rest =>
      if negb (isword c) then findall_words rest
      else match rest with
           | EmptyString => [String c EmptyString]
           | String d _ =>
               if negb (isword d) then String c EmptyString :: findall_words rest
               else match findall_words rest with
                    | w :: ws => String c w :: ws
                    | [] => [String c EmptyString]
                    end
           end
  end.

Fixpoint all_chars (p : ascii → bool) (s : string) : bool :=
  match s with
  | EmptyString => true
  | String c s' => p c && all_chars p s'
  end.

(** A whole word of the shape [[A-Z][a-z]+]. *)
Definition is_capitalized (w : string) : bool :=
  match w with
  | String c (String d rest) => isupper c && islower d && all_chars islower rest
  | _ => false
  end.

(** [re.findall(r'\b[A-Z][a-z]+\b', s)].  Both ends of a match sit on a
    word boundary and every matched character is a word character, so
    the matches are the maximal word runs of that shape. *)
Definition findall_capitalized (s : string) : list string :=
  filter (λ w, is_capitalized w = true) (findall_words s).

(** [chr(n)] for a code below 256. *)
Definition chr (n : nat) : string := String (ascii_of_nat n) EmptyString.

(** [str(n)] for a non-negative [int]. *)
Definition str (n : nat) : string := pretty n.

(** *** Sequences *)

(** The bound of a slice after Python's clamping: a negative bound
    counts from the end. *)
Definition slice_bound (n i : Z) : Z :=
  if i <? 0 then Z.max 0 (i + n) else Z.min i n.

(** [l[lo:hi]] *)
Definition slice {A} (l : list A) (lo hi : Z) : list A :=
  let n := Z.of_nat (length l) in
  let lo' := slice_bound n lo in
  let hi' := slice_bound n hi in
  take (Z.to_nat (hi' - lo')) (drop (Z.to_nat lo') l).

(** The values [i, i+step, ...] below [stop], for a positive [step]. *)
Fixpoint range_up (fuel : nat) (i stop step : Z) : list Z :=
  match fuel with
  | O => []
  | S fuel' =>
      if i <? stop then i :: range_up fuel' (i + step) stop step else []
  end.

(** [range(0, stop, step)] for [0 <= stop]: a zero step is a
    [ValueError], a negative step yields nothing. *)
Definition range0 (stop step : Z) : PyResult (list Z) :=
  if step =? 0 then Raise ValueError
  else if step <? 0 then Ok []
  else Ok (range_up (Z.to_nat stop) 0 stop step).

(** [range(n)] as indices. *)
Definition range (n : Z) : list nat := seq 0 (Z.to_nat n).

(** [l.index(x)] *)
Fixpoint index `{EqDecision A} (x : A) (l : list A) : PyResult nat :=
  match l with
  | [] => Raise ValueError
  | y :: l' => if decide (y = x) then Ok 0%nat
               else bind (index x l') (λ i, Ok (S i))
  end.

(** *** The [random] module over an entropy tape *)

Definition rng : Type := list nat.

(** [_randbelow(n)] for [0 < n]. *)
Definition randbelow (n : nat) (g : rng) : nat * rng :=
  match g with
  | [] => (0%nat, [])
  | r :: g' => ((r mod n)%nat, g')
  end.

(** [random.choice(l)] *)
Definition choice {A} (l : list A) (g : rng) : PyResult A * rng :=
  match l with
  | [] => (Raise IndexError, g)
  | _ :: _ =>
      let '(i, g') := randbelow (length l) g in
      (match l !! i with Some x => Ok x | None => Raise IndexError end, g')
  end.

Definition swap {A} (i j : nat) (l : list A) : list A :=
  match l !! i, l !! j with
  | Some x, Some y => <[i := y]> (<[j := x]> l)
  | _, _ => l
  end.

(** [random.shuffle(l)]: for [i] from [len(l)-1] down to [1], swap
    position [i] with a position drawn below [i+1]. *)
Fixpoint shuffle_from {A} (i : nat) (l : list A) (g : rng) : list A * rng :=
  match i with
  | O => (l, g)
  | S i' =>
      let '(j, g') := randbelow (S i) g in
      shuffle_from i' (swap i j l) g'
  end.

Definition shuffle {A} (l : list A) (g : rng) : list A * rng :=
  shuffle_from (pred (length l)) l g.

(** *** Randomised computations: the tape is threaded, an exception
    stops the computation *)

Definition Rand (A : Type) : Type := rng → PyResult A * rng.

Definition rret {A} (a : A) : Rand A := λ g, (Ok a, g).

Definition rbind {A B} (m : Rand A) (k : A → Rand B) : Rand B :=
  λ g, match m g with
       | (Ok a, g') => k a g'
       | (Raise e, g') => (Raise e, g')
       end.

Definition lift {A} (m : PyResult A) : Rand A := λ g, (m, g).

Definition rshuffle {A} (l : list A) : Rand (list A) :=
  λ g, let '(l', g') := shuffle l g in (Ok l', g').

(** *** Numbers *)

(** [a / b] on two floats. *)
Definition fdiv (a b : Q) : PyResult Q :=
  if Qeq_bool b 0 then Raise ZeroDivisionError else Ok (a / b)%Q.

(** [a / b] on two [int]s. *)
Definition truediv (a b : Z) : PyResult Q := fdiv (inject_Z a) (inject_Z b).

(** [min(a, b)] on floats: the first argument unless the second is
    strictly smaller. *)
Definition min_float (a b : Q) : Q := if Qle_bool a b then a else b.

(** [sorted(l, key=key, reverse=True)]: descending and stable, so an
    element goes in front of the first one whose key is not larger. *)
Fixpoint insert_desc {A} (key : A → nat) (x : A) (l : list A) : list A :=
  match l with
  | [] => [x]
  | y :: l' =>
      if (key x <? key y)%nat then y :: insert_desc key x l'
      else x :: y :: l'
  end.

Definition sorted_desc {A} (key : A → nat) (l : list A) : list A :=
  foldr (insert_desc key) [] l.

Definition nl : string := String (ascii_of_nat 10) EmptyString.

(** *** Substitutions of the [re] module *)

(** [re.sub(r'\s+', ' ', s)]: every maximal run of whitespace becomes
    one blank. *)
Fixpoint collapse_whitespace (s : string) : string :=
  match s with
  | EmptyString => EmptyString
  | String c rest =>
      if isspace c then
        match rest with
        | EmptyString => String " " EmptyString
        | String d _ =>
            if isspace d then collapse_whitespace rest
            else String " " (collapse_whitespace rest)
        end
      else String c (collapse_whitespace rest)
  end.

(** [re.sub('[^...]', '', s)] for a character class: the characters of
    the class stay. *)
Fixpoint keep_chars (keep : ascii → bool) (s : string) : string :=
  match s with
  | EmptyString => EmptyString
  | String c rest =>
      if keep c then String c (keep_chars keep rest) else keep_chars keep rest
  end.

End Py.

Import Py.

(** ** [src/document_processor.py] *)

Module DocumentProcessor.

Record t : Type := mk {
  chunk_size : Z;
  chunk_overlap : Z
}.

(** [__init__] with its default arguments. *)
Definition init : t := {| chunk_size := 1000; chunk_overlap := 200 |}.

Definition _create_chunks (self : t) (text : string) : PyResult (list string) :=
  let words := split text in
  bind (range0 (Z.of_nat (length words)) (chunk_size self - chunk_overlap self))
    (λ starts,
      Ok ((λ i, join " " (slice words i (i + chunk_size self))) <$> starts)).

(** The class [[\w\s\.\,\!\?\;\:\-\(\)]] of [_clean_text]. *)
Definition clean_char (c : ascii) : bool :=
  isword c || isspace c ||
  bool_decide (c ∈ ["."; ","; "!"; "?"; ";"; ":"; "-"; "("; ")"]%char).

Definition _clean_text (text : string) : string :=
  let text := collapse_whitespace text in
  let text := keep_chars clean_char text in
  strip text.

(** What the processor reads from outside: [pathlib] for the suffix and
    the name of a path, PyPDF2 for the page texts, python-docx for the
    paragraph texts and [open] for a text file. *)
Class Files : Type := {
  path_suffix : string → string;
  path_name : string → string;
  pdf_pages : string → PyResult (list string);
  docx_paragraphs : string → PyResult (list string);
  read_text : string → PyResult string
}.

Record doc_metadata : Type := {
  file_type : string;
  chunk_count : nat;
  word_count : nat
}.

Record document : Type := {
  file_path : string;
  file_name : string;
  content : string;
  chunks : list string;
  metadata : doc_metadata
}.

(** The loop [content += piece + "\n"]. *)
Definition lines_of (pieces : list string) : string :=
  foldl (λ content piece, content +:+ piece +:+ nl) EmptyString pieces.

Section WithFiles.
Context {files : Files}.

Definition _extract_pdf_content (file_path : string) : PyResult string :=
  bind (pdf_pages file_path) (λ pages, Ok (lines_of pages)).

Definition _extract_docx_content (file_path : string) : PyResult string :=
  bind (docx_paragraphs file_path) (λ paragraphs, Ok (lines_of paragraphs)).

Definition _extract_txt_content (file_path : string) : PyResult string :=
  read_text file_path.

Definition process_document (self : t) (file_path : string) : PyResult document :=
  let file_ext := lower (path_suffix file_path) in
  bind
    (if String.eqb file_ext ".pdf" then _extract_pdf_content file_path
     else if String.eqb file_ext ".docx" then _extract_docx_content file_path
     else if String.eqb file_ext ".txt" then _extract_txt_content file_path
     else Raise ValueError)
    (λ content,
      let cleaned_content := _clean_text content in
      bind (_create_chunks self cleaned_content)
        (λ chunks,
          Ok {| file_path := file_path;
                file_name := path_name file_path;
                content := cleaned_content;
                chunks := chunks;
                metadata := {| file_type := file_ext;
                               chunk_count := length chunks;
                               word_count := length (split cleaned_content) |} |})).

End WithFiles.

End DocumentProcessor.


Global Instance PyResult_ret : MRet PyResult := λ A a, Ok a.
Global Instance PyResult_bind : MBind PyResult := λ A B k m, Py.bind m k.
Global Instance Rand_ret : MRet Rand := λ A a, rret a.
Global Instance Rand_bind : MBind Rand := λ A B k m, rbind m k.

(** ** [config.py] *)

Module Config.

Definition CHUNK_SIZE : Z := 1000.
Definition CHUNK_OVERLAP : Z := 200.
Definition DEFAULT_QUIZ_SIZE : Z := 5.

Record band : Type := { min_score : Q; max_score : Q }.

(** [DIFFICULTY_LEVELS.get(level, default)] *)
Definition DIFFICULTY_LEVELS_get (level : string) (default : band) : band :=
  if String.eqb level "beginner" then {| min_score := 0; max_score := 3 # 10 |}
  else if String.eqb level "intermediate" then {| min_score := 3 # 10; max_score := 7 # 10 |}
  else if String.eqb level "advanced" then {| min_score := 7 # 10; max_score := 1 |}
  else default.

End Config.

(** ** [src/difficulty_assessor.py] *)

Module DifficultyAssessor.

(** NLTK's sentence tokenizer. *)
Class Punkt : Type := { sent_tokenize : string → list string }.

Record t : Type := mk { complex_words : gset string }.

Definition init : t :=
  {| complex_words :=
       list_to_set
         [ "analyze"; "synthesize"; "evaluate"; "hypothesis"; "methodology";
           "paradigm"; "phenomenon"; "conceptual"; "theoretical"; "empirical" ] |}.

Record metrics : Type := {
  avg_sentence_length : Q;
  complex_word_ratio : Q;
  syllable_density : Q;
  technical_term_ratio : Q
}.

Definition is_vowel (c : ascii) : bool :=
  bool_decide (c ∈ ["a"; "e"; "i"; "o"; "u"; "y"]%char).

(** The [for char in word.lower()] loop of [_count_syllables]. *)
Fixpoint vowel_groups (w : string) (prev_was_vowel : bool) (syllables : Z) : Z :=
  match w with
  | EmptyString => syllables
  | String char w' =>
      if is_vowel char
      then vowel_groups w' true (if prev_was_vowel then syllables else syllables + 1)
      else vowel_groups w' false syllables
  end.

Definition _count_syllables (word : string) : Z :=
  let syllables := vowel_groups (lower word) false 0 in
  let syllables := if endswith_char "e" word then syllables - 1 else syllables in
  if syllables =? 0 then 1 else syllables.

Definition sum_Z (l : list Z) : Z := foldr Z.add 0 l.

Section WithTokenizer.
Context {punkt : Punkt}.

Definition _calculate_metrics (self : t) (text : string) : PyResult metrics :=
  let sentences := sent_tokenize text in
  let words := findall_words (lower text) in
  let nwords := Z.of_nat (length words) in
  avg_sentence_length ←
    match sentences with
    | [] => mret 0%Q
    | _ :: _ => truediv nwords (Z.of_nat (length sentences))
    end;
  let complex_words_ := filter (λ word, 3 <= _count_syllables word) words in
  complex_word_ratio ←
    match words with
    | [] => mret 0%Q
    | _ :: _ => truediv (Z.of_nat (length complex_words_)) nwords
    end;
  let total_syllables := sum_Z (_count_syllables <$> words) in
  syllable_density ←
    match words with
    | [] => mret 0%Q
    | _ :: _ => truediv total_syllables nwords
    end;
  let technical_terms := filter (λ word, word ∈ complex_words self) words in
  technical_term_ratio ←
    match words with
    | [] => mret 0%Q
    | _ :: _ => truediv (Z.of_nat (length technical_terms)) nwords
    end;
  mret {| avg_sentence_length := avg_sentence_length;
          complex_word_ratio := (complex_word_ratio * 100)%Q;
          syllable_density := syllable_density;
          technical_term_ratio := (technical_term_ratio * 100)%Q |}.

Definition assess_text_difficulty (self : t) (text : string) : PyResult Q :=
  m ← _calculate_metrics self text;
  let difficulty_score :=
    (avg_sentence_length m * (2 # 10) +
     complex_word_ratio m * (3 # 10) +
     syllable_density m * (3 # 10) +
     technical_term_ratio m * (2 # 10))%Q in
  normalized ← fdiv difficulty_score 100;
  mret (min_float 1 normalized).

End WithTokenizer.

Definition categorize_difficulty (difficulty_score : Q) : string :=
  if negb (Qle_bool (3 # 10) difficulty_score) then "beginner"
  else if negb (Qle_bool (7 # 10) difficulty_score) then "intermediate"
  else "advanced".

End DifficultyAssessor.

(** ** [src/vector_store.py] *)

Module VectorStore.

(** The metadata the application stores with every chunk. *)
Record metadata : Type := {
  file_name : string;
  chunk_index : nat;
  file_type : string;
  word_count : nat
}.

(** The dictionary a query returns: one list per query text. *)
Record results : Type := mk_results {
  documents : list (list string);
  metadatas : list (list metadata)
}.

(** The ChromaDB collection: [collection.query(query_texts, n_results)]
    reads the collection and may raise. *)
Class Chroma (Collection : Type) : Type := {
  collection_query : Collection → list string → Z → PyResult results
}.

Record t (Collection : Type) : Type := mk {
  db_path : string;
  collection_name : string;
  collection : Collection
}.
Arguments mk {Collection} _ _ _.
Arguments db_path {Collection} _.
Arguments collection_name {Collection} _.
Arguments collection {Collection} _.

Definition search {Collection : Type} {chroma : Chroma Collection}
    (self : t Collection)
    (query : string) (n_results : Z) : PyResult results :=
  collection_query (collection self) [query] n_results.

End VectorStore.

(** ** [app.py]: the metadata of the chunks of an uploaded document *)

Module App.

(** The loop [for j, chunk in enumerate(doc_data['chunks'])]. *)
Definition chunk_metadatas (doc_data : DocumentProcessor.document)
    : list VectorStore.metadata :=
  imap (λ j chunk,
          {| VectorStore.file_name := DocumentProcessor.file_name doc_data;
             VectorStore.chunk_index := j;
             VectorStore.file_type :=
               DocumentProcessor.file_type (DocumentProcessor.metadata doc_data);
             VectorStore.word_count := length (split chunk) |})
       (DocumentProcessor.chunks doc_data).

End App.

(** [l[0]] *)
Definition first {A} (l : list A) : PyResult A :=
  match l with
  | [] => Raise IndexError
  | x :: _ => Ok x
  end.

(** [l[i]] for [0 <= i] *)
Definition item {A} (l : list A) (i : nat) : PyResult A :=
  match l !! i with
  | Some x => Ok x
  | None => Raise IndexError
  end.

(** ** [src/quiz_generator.py] *)

Module QuizGenerator.

(** A question dictionary; the ["type"] entry is the constructor. *)
Inductive Question : Type :=
| MultipleChoice (question : string) (options : list (string * string))
    (correct_answer : string)
| TrueFalse (question : string) (correct_answer : string)
| ShortAnswer (question : string) (sample_answer : string).

Record Quiz : Type := {
  topic : string;
  num_questions : nat;
  questions : list Question;
  quiz_type : string
}.

(** What [generate_quiz] returns: the error dictionary or a quiz. *)
Inductive Generated : Type :=
| ErrorDict (error : string)
| QuizDict (quiz : Quiz).

Record Result : Type := {
  result_question : string;
  user_answer : string;
  correct_answer : string;
  is_correct : bool
}.

Record Evaluation : Type := {
  score : Z;
  total_questions : nat;
  percentage : Q;
  grade : string;
  results : list Result
}.


(** [[s.strip() for s in content.split('.') if len(s.strip()) > 20]] *)
Definition candidate_sentences (content : string) : list string :=
  strip <$> filter (λ s, (20 < len (strip s))%nat) (split_on "." content).

(** One round of the loop of [_generate_multiple_choice]; [None] is
    the [continue]. *)
Definition multiple_choice_item (sentence : string) : Rand (option Question) :=
  let words := findall_capitalized sentence in
  match words with
  | [] => mret None
  | _ :: _ =>
      key_term ← choice words;
      let question_text := replace key_term "____" sentence in
      let options := [key_term] in
      let dummy_options := ["Option A"; "Option B"; "Option C"] in
      let options := options ++ take 3 dummy_options in
      options ← rshuffle options;
      idx ← lift (index key_term options);
      let correct_answer := chr (65 + idx) in
      mret (Some (MultipleChoice
                    ("Fill in the blank: " +:+ question_text)
                    (imap (λ i opt, (chr (65 + i), opt)) options)
                    correct_answer))
  end.

(** A [for i in range(...)] loop that appends to [questions]. *)
Fixpoint for_each (body : nat → Rand (option Question)) (idxs : list nat)
    (questions : list Question) : Rand (list Question) :=
  match idxs with
  | [] => mret questions
  | i :: idxs' =>
      q ← body i;
      for_each body idxs'
        (match q with Some q => questions ++ [q] | None => questions end)
  end.

Definition loop_bound (num_questions : Z) (sentences : list string) : Z :=
  Z.min num_questions (Z.of_nat (length sentences)).

Definition _generate_multiple_choice (content : string) (num_questions : Z)
    : Rand (list Question) :=
  let sentences := candidate_sentences content in
  for_each
    (λ i, sentence ← lift (item sentences i); multiple_choice_item sentence)
    (range (loop_bound num_questions sentences)) [].

Definition modifications : list (string * string) :=
  [ ("is", "is not"); ("was", "was not"); ("can", "cannot");
    ("will", "will not"); ("should", "should not") ].

(** The loop of [_modify_sentence_for_false] over the pairs still to try. *)
Fixpoint modify_with (pairs : list (string * string)) (sentence : string) : string :=
  match pairs with
  | [] => sentence
  | (original, replacement) :: pairs' =>
      if contains original (lower sentence)
      then replace_first original replacement (lower sentence)
      else modify_with pairs' sentence
  end.

Definition _modify_sentence_for_false (sentence : string) : string :=
  modify_with modifications sentence.

Definition true_false_item (i : nat) (sentence : string) : Question :=
  let is_true := (i mod 2 =? 0)%nat in
  let question_text :=
    if negb is_true then _modify_sentence_for_false sentence else sentence in
  TrueFalse ("True or False: " +:+ question_text)
            (if is_true then "True" else "False").

Definition _generate_true_false (content : string) (num_questions : Z)
    : Rand (list Question) :=
  let sentences := candidate_sentences content in
  for_each
    (λ i, sentence ← lift (item sentences i);
          mret (Some (true_false_item i sentence)))
    (range (loop_bound num_questions sentences)) [].

Definition question_starters : list string :=
  [ "What is"; "How does"; "Why is"; "When did"; "Where is";
    "Who was"; "Which"; "Explain"; "Describe"; "Define" ].

Definition short_answer_item (sentence : string) : Rand (option Question) :=
  starter ← choice question_starters;
  let words := split sentence in
  if (5 <? length words)%nat then
    let key_concept := join " " (take 3 words) in
    let question_text := starter +:+ " " +:+ lower key_concept +:+ "?" in
    mret (Some (ShortAnswer question_text sentence))
  else mret None.

Definition _generate_short_answer (content : string) (num_questions : Z)
    : Rand (list Question) :=
  let sentences := candidate_sentences content in
  for_each
    (λ i, sentence ← lift (item sentences i); short_answer_item sentence)
    (range (loop_bound num_questions sentences)) [].

Definition _generate_mixed_quiz (content : string) (num_questions : Z)
    : Rand (list Question) :=
  let questions := [] in
  let mc_count := num_questions / 3 in
  let tf_count := num_questions / 3 in
  let sa_count := num_questions - mc_count - tf_count in
  mc ← _generate_multiple_choice content mc_count;
  let questions := questions ++ mc in
  tf ← _generate_true_false content tf_count;
  let questions := questions ++ tf in
  sa ← _generate_short_answer content sa_count;
  let questions := questions ++ sa in
  rshuffle questions.

Section WithStore.
Context {Collection : Type} {chroma : VectorStore.Chroma Collection}.

Record t : Type := mk { vector_store : VectorStore.t Collection }.

Definition generate_quiz (self : t) (topic : string) (num_questions : Z)
    (quiz_type : string) : Rand Generated :=
  search_results ← lift (VectorStore.search (vector_store self) topic 10);
  docs ← lift (first (VectorStore.documents search_results));
  match docs with
  | [] => mret (ErrorDict "No content found for this topic")
  | _ :: _ =>
      let content := join " " docs in
      questions ←
        (if String.eqb quiz_type "multiple_choice"
         then _generate_multiple_choice content num_questions
         else if String.eqb quiz_type "true_false"
         then _generate_true_false content num_questions
         else if String.eqb quiz_type "short_answer"
         then _generate_short_answer content num_questions
         else _generate_mixed_quiz content num_questions);
      mret (QuizDict {| topic := topic;
                        num_questions := length questions;
                        questions := questions;
                        quiz_type := quiz_type |})
  end.

End WithStore.
Arguments t Collection : clear implicits.

Definition word_set (s : string) : gset string := list_to_set (split (lower s)).

Definition _evaluate_short_answer (user_answer sample_answer : string) : bool :=
  let user_words := word_set user_answer in
  let sample_words := word_set sample_answer in
  let key_words := filter (λ word, (3 < len word)%nat) (elements sample_words) in
  let matching_words := user_words ∩ list_to_set key_words in
  Qle_bool (inject_Z (Z.of_nat (length key_words)) * (3 # 10))
           (inject_Z (Z.of_nat (size matching_words))).

Definition _calculate_grade (percentage : Q) : string :=
  if Qle_bool 90 percentage then "A"
  else if Qle_bool 80 percentage then "B"
  else if Qle_bool 70 percentage then "C"
  else if Qle_bool 60 percentage then "D"
  else "F".

(** The test of one question inside the loop of [evaluate_quiz]. *)
Definition check_answer (question : Question) (user_answer : string) : bool :=
  match question with
  | MultipleChoice _ _ correct | TrueFalse _ correct =>
      String.eqb (upper user_answer) (upper correct)
  | ShortAnswer _ sample => _evaluate_short_answer user_answer sample
  end.

Definition question_text (question : Question) : string :=
  match question with
  | MultipleChoice q _ _ | TrueFalse q _ | ShortAnswer q _ => q
  end.

(** [question.get('correct_answer', question.get('sample_answer', ''))] *)
Definition reference_answer (question : Question) : string :=
  match question with
  | MultipleChoice _ _ a | TrueFalse _ a | ShortAnswer _ a => a
  end.

(** The loop of [evaluate_quiz] from index [i] on. *)
Fixpoint evaluate_loop (user_answers : gmap string string) (i : nat)
    (qs : list Question) (score : Z) (results : list Result) : Z * list Result :=
  match qs with
  | [] => (score, results)
  | question :: qs' =>
      let user_answer := default "" (user_answers !! str i) in
      let is_correct := check_answer question user_answer in
      let score := if is_correct then score + 1 else score in
      evaluate_loop user_answers (S i) qs' score
        (results ++ [ {| result_question := question_text question;
                         user_answer := user_answer;
                         correct_answer := reference_answer question;
                         is_correct := is_correct |} ])
  end.

Definition evaluate_quiz (quiz : Quiz) (user_answers : gmap string string)
    : PyResult Evaluation :=
  let total_questions := length (questions quiz) in
  let '(score, results) := evaluate_loop user_answers 0 (questions quiz) 0 [] in
  percentage ←
    (if (0 <? total_questions)%nat
     then ratio ← truediv score (Z.of_nat total_questions); mret (ratio * 100)%Q
     else mret 0%Q);
  mret {| score := score;
          total_questions := total_questions;
          percentage := percentage;
          grade := _calculate_grade percentage;
          results := results |}.

End QuizGenerator.

(** ** [src/embeddings.py] *)

Module EmbeddingManager.
(** The engine only stores the manager; the model is never called. *)
Record t : Type := mk { model_name : string }.
End EmbeddingManager.

(** ** [src/rag_engine.py] *)

Module RAGEngine.

Section WithCollaborators.
Context {Collection : Type} {chroma : VectorStore.Chroma Collection}.
Context {punkt : DifficultyAssessor.Punkt}.

Record t : Type := mk {
  vector_store : VectorStore.t Collection;
  embedding_manager : EmbeddingManager.t;
  difficulty_assessor : DifficultyAssessor.t;
  query_history : list string
}.

Definition __init__ (vector_store : VectorStore.t Collection)
    (embedding_manager : EmbeddingManager.t) : t :=
  {| vector_store := vector_store;
     embedding_manager := embedding_manager;
     difficulty_assessor := DifficultyAssessor.init;
     query_history := [] |}.

Record Answer : Type := {
  answer_question : string;
  response : string;
  sources : VectorStore.results;
  understanding_level : string;
  suggested_actions : list string
}.

(** What [explain_like_im_five] returns: the bare response of the
    not-found case or the full dictionary. *)
Inductive Explanation : Type :=
| NotFound (response : string)
| Explained (question response : string) (sources : VectorStore.results)
    (explanation_level : string).

Definition _matches_difficulty_level (self : t) (doc_difficulty : Q)
    (target_level : string) : bool :=
  let level_range :=
    Config.DIFFICULTY_LEVELS_get target_level
      {| Config.min_score := 0; Config.max_score := 1 |} in
  Qle_bool (Config.min_score level_range) doc_difficulty &&
  Qle_bool doc_difficulty (Config.max_score level_range).

(** The loop of [_filter_by_difficulty] from index [i] on. *)
Fixpoint filter_loop (self : t) (search_results : VectorStore.results)
    (difficulty_level : string) (i : nat) (docs : list string)
    (filtered_docs : list string) (filtered_metadatas : list VectorStore.metadata)
    : PyResult (list string * list VectorStore.metadata) :=
  match docs with
  | [] => mret (filtered_docs, filtered_metadatas)
  | doc :: docs' =>
      doc_difficulty ←
        DifficultyAssessor.assess_text_difficulty (difficulty_assessor self) doc;
      if _matches_difficulty_level self doc_difficulty difficulty_level
      then
        metas ← first (VectorStore.metadatas search_results);
        meta ← item metas i;
        filter_loop self search_results difficulty_level (S i) docs'
          (filtered_docs ++ [doc]) (filtered_metadatas ++ [meta])
      else
        filter_loop self search_results difficulty_level (S i) docs'
          filtered_docs filtered_metadatas
  end.

Definition _filter_by_difficulty (self : t) (search_results : VectorStore.results)
    (difficulty_level : string) : PyResult VectorStore.results :=
  docs ← first (VectorStore.documents search_results);
  '(filtered_docs, filtered_metadatas) ←
    filter_loop self search_results difficulty_level 0 docs [] [];
  mret {| VectorStore.documents := [filtered_docs];
          VectorStore.metadatas := [filtered_metadatas] |}.

Definition _generate_response (self : t) (question : string)
    (search_results : VectorStore.results) : PyResult string :=
  docs ← first (VectorStore.documents search_results);
  match docs with
  | [] => mret "I couldn't find relevant information in your study materials. Try uploading more documents or rephrasing your question."
  | _ :: _ =>
      let context := join " " (take 3 docs) in
      mret ("Based on your study materials:" +:+ nl +:+ nl +:+
            prefix_of 500 context +:+ "...")
  end.

Definition count_present (indicators question_words : list string) : nat :=
  length (filter (λ word, word ∈ question_words) indicators).

Definition _assess_understanding_level (self : t) (question : string) : string :=
  let question_words := split (lower question) in
  let beginner_indicators := ["what"; "is"; "define"; "explain"; "basic"; "simple"] in
  let advanced_indicators := ["analyze"; "compare"; "evaluate"; "synthesize"; "critique"] in
  let beginner_count := count_present beginner_indicators question_words in
  let advanced_count := count_present advanced_indicators question_words in
  if (beginner_count <? advanced_count)%nat then "advanced"
  else if (0 <? beginner_count)%nat then "beginner"
  else "intermediate".

Definition _suggest_actions (self : t) (question understanding_level : string)
    : list string :=
  if String.eqb understanding_level "beginner" then
    [ "Try asking for a more detailed explanation";
      "Request examples to illustrate the concept" ]
  else if String.eqb understanding_level "intermediate" then
    [ "Ask for related concepts to explore";
      "Request practice questions on this topic" ]
  else
    [ "Ask for critical analysis of this topic";
      "Request connections to other advanced concepts" ].

(** [if difficulty_level:] holds for a non-empty string. *)
Definition truthy (difficulty_level : option string) : option string :=
  match difficulty_level with
  | Some EmptyString | None => None
  | Some level => Some level
  end.

(** A method call: the engine after the call, and what the call
    returned or raised. *)
Definition Method (A : Type) : Type := t → t * PyResult A.

Definition and_then {A B} (m : Method A) (k : A → Method B) : Method B :=
  λ self, match m self with
          | (self', Ok a) => k a self'
          | (self', Raise e) => (self', Raise e)
          end.

(** A statement that reads the engine and assigns nothing to it. *)
Definition reads {A} (f : t → PyResult A) : Method A :=
  λ self, (self, f self).

(** [self.query_history.append(question)] *)
Definition history_append (question : string) : Method () :=
  λ self,
    ({| vector_store := vector_store self;
        embedding_manager := embedding_manager self;
        difficulty_assessor := difficulty_assessor self;
        query_history := query_history self ++ [question] |}, Ok ()).

Definition query (question : string) (n_results : Z)
    (difficulty_level : option string) : Method Answer :=
  and_then (history_append question) (λ _,
  and_then (reads (λ self,
              VectorStore.search (vector_store self) question n_results))
           (λ search_results,
  and_then (match truthy difficulty_level with
            | Some level =>
                reads (λ self, _filter_by_difficulty self search_results level)
            | None => reads (λ _, Ok search_results)
            end)
           (λ search_results,
  and_then (reads (λ self, _generate_response self question search_results))
           (λ response,
  and_then (reads (λ self, Ok (_assess_understanding_level self question)))
           (λ understanding_level,
  reads (λ self,
    Ok {| answer_question := question;
          response := response;
          sources := search_results;
          understanding_level := understanding_level;
          suggested_actions :=
            _suggest_actions self question understanding_level |})))))).

Definition _create_simplified_explanation (self : t) (question context : string)
    : string :=
  let sentences := split_on "." context in
  let simple_sentences :=
    strip <$> filter (λ sentence, (length (split sentence) < 20)%nat)
                     (take 3 sentences) in
  match simple_sentences with
  | _ :: _ =>
      "Here's a simple explanation:" +:+ nl +:+ nl +:+
      join ". " simple_sentences +:+ "."
  | [] =>
      "Let me explain this in simple terms:" +:+ nl +:+ nl +:+
      prefix_of 200 context +:+ "..."
  end.

Definition explain_like_im_five (self : t) (question : string)
    : PyResult Explanation :=
  search_results ← VectorStore.search (vector_store self) question 2;
  docs ← first (VectorStore.documents search_results);
  match docs with
  | [] => mret (NotFound "I couldn't find information about that topic. Try uploading more study materials!")
  | _ :: _ =>
      let context := join " " docs in
      let simplified_response := _create_simplified_explanation self question context in
      mret (Explained question simplified_response search_results "beginner")
  end.

(** [topic_counts[word] = topic_counts.get(word, 0) + 1] on an
    insertion-ordered dictionary: a known key keeps its place. *)
Fixpoint bump (word : string) (topic_counts : list (string * nat))
    : list (string * nat) :=
  match topic_counts with
  | [] => [(word, 1%nat)]
  | (w, c) :: rest =>
      if String.eqb w word then (w, S c) :: rest
      else (w, c) :: bump word rest
  end.

Definition count_words (words : list string) (topic_counts : list (string * nat))
    : list (string * nat) :=
  foldl (λ tc word, if (3 <? len word)%nat then bump word tc else tc)
        topic_counts words.

Definition _extract_common_topics (self : t) (queries : list string)
    : list (string * nat) :=
  foldl (λ tc query, count_words (findall_words (lower query)) tc) [] queries.

Definition weak_area_message (topic : string) (count : nat) : string :=
  "You've asked about '" +:+ topic +:+ "' " +:+ str count +:+
  " times - consider reviewing this topic".

Definition _identify_weak_areas (self : t) (common_topics : list (string * nat))
    : list string :=
  let sorted_topics := sorted_desc snd common_topics in
  let weak_areas :=
    (λ tc, weak_area_message (fst tc) (snd tc)) <$>
      filter (λ tc, (3 <= snd tc)%nat) (take 5 sorted_topics) in
  match weak_areas with
  | _ :: _ => weak_areas
  | [] => ["No specific weak areas identified yet"]
  end.

Definition find_knowledge_gaps (self : t) : list string :=
  if (length (query_history self) <? 5)%nat then
    ["Upload more documents and ask more questions to identify knowledge gaps!"]
  else
    let common_topics := _extract_common_topics self (query_history self) in
    _identify_weak_areas self common_topics.

End WithCollaborators.
Arguments t Collection : clear implicits.
Arguments Method Collection A : clear implicits.

End RAGEngine.

(** ** Concrete collaborators

    A list-backed collection that returns its first [n_results] chunks,
    and a tokenizer that cuts at full stops.  They instantiate the
    collaborator interfaces wherever a statement is run on an example. *)

Module Examples.

Definition list_chroma : VectorStore.Chroma (list string) :=
  {| VectorStore.collection_query c q n :=
       Ok (VectorStore.mk_results [take (Z.to_nat n) c] [[]]) |}.

Definition dot_punkt : DifficultyAssessor.Punkt :=
  {| DifficultyAssessor.sent_tokenize s :=
       filter (λ x, x ≠ EmptyString) (strip <$> split_on "." s) |}.

(** A collection whose every query raises. *)
Definition failing_chroma : VectorStore.Chroma (list string) :=
  {| VectorStore.collection_query c q n :=
       Raise (CollaboratorError "collection unavailable") |}.

Definition store (docs : list string) : VectorStore.t (list string) :=
  VectorStore.mk "data/vector_db" "study_buddy" docs.

Definition engine (docs history : list string) : RAGEngine.t (list string) :=
  {| RAGEngine.vector_store := store docs;
     RAGEngine.embedding_manager := EmbeddingManager.mk "all-MiniLM-L6-v2";
     RAGEngine.difficulty_assessor := DifficultyAssessor.init;
     RAGEngine.query_history := history |}.

(** The metadata record of chunk [i], of [n] words, of a text file. *)
Definition meta (name : string) (i n : nat) : VectorStore.metadata :=
  {| VectorStore.file_name := name; VectorStore.chunk_index := i;
     VectorStore.file_type := ".txt"; VectorStore.word_count := n |}.

(** A collection that returns its first [n_results] chunks together
    with a metadata record for each of them. *)
Definition indexed_chroma : VectorStore.Chroma (list string) :=
  {| VectorStore.collection_query c q n :=
       let docs := take (Z.to_nat n) c in
       Ok (VectorStore.mk_results [docs]
             [imap (λ i doc, meta "notes.txt" i (length (split doc))) docs]) |}.

(** An in-memory file system: the suffix is the text from the last dot
    on, the name is the path, a text file reads as one fixed sentence
    and the two document readers fail. *)
Definition memory_files : DocumentProcessor.Files :=
  {| DocumentProcessor.path_suffix p :=
       match reverse (split_on "." p) with
       | ext :: _ :: _ => "." +:+ ext
       | _ => EmptyString
       end;
     DocumentProcessor.path_name p := p;
     DocumentProcessor.pdf_pages p := Raise (CollaboratorError "no reader");
     DocumentProcessor.docx_paragraphs p := Raise (CollaboratorError "no reader");
     DocumentProcessor.read_text p := Ok "  Cells  divide; organs grow.  " |}.

End Examples.

(** ** The vocabulary of the statements *)

(** [ceil(a / b)] on naturals. *)
Definition ceil_div (a b : nat) : nat := ((a + b - 1) / b)%nat.

(** A method call that leaves the engine as it was. *)
Definition read_only {Collection : Type} {A}
    (m : RAGEngine.Method Collection A) : Prop :=
  ∀ self, fst (m self) = self.

(** The reference-answer words longer than three characters. *)
Definition keyword_set (sample_answer : string) : gset string :=
  filter (λ word, (3 < len word)%nat) (QuizGenerator.word_set sample_answer).

(** Every word of every question, in the order of asking. *)
Definition history_words (history : list string) : list string :=
  concat ((λ query, findall_words (lower query)) <$> history).

(** How often [w] is an element of [l]. *)
Definition occurrences (w : string) (l : list string) : nat :=
  length (filter (λ x, x = w) l).

(** The entry of a word in the count table, 0 when it has none. *)
Fixpoint get_count (w : string) (tc : list (string * nat)) : nat :=
  match tc with
  | [] => 0
  | (w', c) :: rest => if String.eqb w' w then c else get_count w rest
  end.

(** The table after counting [words] on top of the words [seen]. *)
Definition counts (seen : list string) (tc : list (string * nat)) : Prop :=
  NoDup tc.*1
  ∧ Forall (λ p, (0 < p.2)%nat) tc
  ∧ ∀ w, get_count w tc =
         if decide (3 < len w)%nat then occurrences w seen else 0%nat.

(** A sentence of fewer than 20 words. *)
Definition short_sentence (sentence : string) : Prop :=
  (length (split sentence) < 20)%nat.

(** The two fixed openings of a simplified explanation. *)
Definition simple_heading : string :=
  "Here's a simple explanation:" +:+ nl +:+ nl.

Definition fallback_heading : string :=
  "Let me explain this in simple terms:" +:+ nl +:+ nl.

(** The response as the specification words it: the first three of the
    sentences that have fewer than 20 words, and the fallback when no
    sentence of the context has. *)
Definition claimed_simplified_explanation (context : string) : string :=
  let simple_sentences :=
    strip <$> take 3 (filter short_sentence (split_on "." context)) in
  match simple_sentences with
  | _ :: _ => simple_heading +:+ join ". " simple_sentences +:+ "."
  | [] => fallback_heading +:+ prefix_of 200 context +:+ "..."
  end.

(** A chunk whose first sentence has 22 words and is followed by three
    short ones. *)
Definition long_first_chunk : string :=
  "Photosynthesis is the long and intricate process by which green plants and some other organisms use sunlight to make food from water. It needs light. It makes sugar. It frees oxygen".

(** [p] occurs in [s]. *)
Definition occurs (p s : string) : Prop :=
  ∃ pre post, s = pre +:+ p +:+ post.

(** What [_modify_sentence_for_false] does to a sentence: the first
    pair whose phrase occurs in the lower-cased sentence rewrites the
    leftmost occurrence there; without such a pair the sentence stays
    as it is. *)
Definition negated_by (pairs : list (string * string))
    (sentence text : string) : Prop :=
  (∃ before original replacement after pre post,
      pairs = before ++ (original, replacement) :: after
      ∧ Forall (λ p, ¬ occurs p.1 (lower sentence)) before
      ∧ lower sentence = pre +:+ original +:+ post
      ∧ (∀ pre' post', lower sentence = pre' +:+ original +:+ post' →
                       (len pre ≤ len pre')%nat)
      ∧ text = pre +:+ replacement +:+ post)
  ∨ (Forall (λ p, ¬ occurs p.1 (lower sentence)) pairs ∧ text = sentence).

(** The sentence with the substitution applied to the sentence itself,
    as the specification words it. *)
Fixpoint claimed_modify_with (pairs : list (string * string))
    (sentence : string) : string :=
  match pairs with
  | [] => sentence
  | (original, replacement) :: pairs' =>
      if contains original sentence
      then replace_first original replacement sentence
      else claimed_modify_with pairs' sentence
  end.


(** The entry of the results list for the question at index [j]. *)
Definition marked (user_answers : gmap string string) (j : nat)
    (question : QuizGenerator.Question) : QuizGenerator.Result :=
  let answer := default "" (user_answers !! str j) in
  {| QuizGenerator.result_question := QuizGenerator.question_text question;
     QuizGenerator.user_answer := answer;
     QuizGenerator.correct_answer := QuizGenerator.reference_answer question;
     QuizGenerator.is_correct := QuizGenerator.check_answer question answer |}.

(** A word as [str.split] yields it: not empty and free of whitespace. *)
Definition wordlike (w : string) : Prop :=
  w ≠ EmptyString ∧ all_chars (λ c, negb (isspace c)) w = true.

(** The score of a document, 0 if the assessor raised. *)
Definition difficulty_of {punkt : DifficultyAssessor.Punkt}
    (assessor : DifficultyAssessor.t) (doc : string) : Q :=
  match DifficultyAssessor.assess_text_difficulty assessor doc with
  | Ok score => score
  | Raise _ => 0%Q
  end.

(** The engine after a run of [query] calls, each with its question,
    its number of results and its difficulty level; what the calls
    return or raise is dropped. *)
Definition ask_all {Collection : Type} {chroma : VectorStore.Chroma Collection}
    {punkt : DifficultyAssessor.Punkt}
    (asks : list (string * Z * option string)) (self : RAGEngine.t Collection)
    : RAGEngine.t Collection :=
  foldl (λ engine ask, fst (RAGEngine.query ask.1.1 ask.1.2 ask.2 engine))
        self asks.

(** The answer sheet that gives every question its own reference
    answer, keyed by the question's index as [evaluate_quiz] reads it. *)
Definition reference_answers (quiz : QuizGenerator.Quiz) : gmap string string :=
  list_to_map
    (imap (λ i question, (str i, QuizGenerator.reference_answer question))
          (QuizGenerator.questions quiz)).

(** The order of the letter grades. *)
Definition grade_rank (grade : string) : nat :=
  if String.eqb grade "A" then 4
  else if String.eqb grade "B" then 3
  else if String.eqb grade "C" then 2
  else if String.eqb grade "D" then 1
  else 0.

(** A question that an empty answer cannot get right: a recorded letter
    or label that is not empty, or a sample answer with a keyword. *)
Definition needs_an_answer (question : QuizGenerator.Question) : Prop :=
  match question with
  | QuizGenerator.MultipleChoice _ _ correct
  | QuizGenerator.TrueFalse _ correct => correct ≠ EmptyString
  | QuizGenerator.ShortAnswer _ sample => keyword_set sample ≠ ∅
  end.

(** The characters of a string, in order. *)
Fixpoint chars (s : string) : list ascii :=
  match s with
  | EmptyString => []
  | String c rest => c :: chars rest
  end.

(** A character that [_clean_text] lets through: a word character, a
    blank or one of the punctuation marks of its class. *)
Definition printed_char (c : ascii) : Prop :=
  isword c = true
  ∨ c ∈ [" "; "."; ","; "!"; "?"; ";"; ":"; "-"; "("; ")"]%char.

(** * Properties *)

(** ** The chunker *)

Section Chunker.

(** [ceil_div a b] is the least number of steps of size [b] that cover [a]. *)
Lemma ceil_div_covers (a b : nat) :
  (0 < b)%nat → (a ≤ ceil_div a b * b)%nat.
Proof.
  intros Hb. unfold ceil_div.
  pose proof (Nat.div_mod (a + b - 1) b ltac:(lia)) as Hdm.
  pose proof (Nat.mod_upper_bound (a + b - 1) b ltac:(lia)). nia.
Qed.

Lemma ceil_div_least (a b n : nat) :
  (0 < b)%nat → (a ≤ n * b)%nat → (ceil_div a b ≤ n)%nat.
Proof.
  intros Hb Hn. unfold ceil_div.
  apply Nat.lt_succ_r, Nat.Div0.div_lt_upper_bound. nia.
Qed.

Lemma range_up_spec (fuel : nat) (i stop step : Z) :
  0 < step →
  (Z.to_nat (stop - i) ≤ fuel)%nat →
  range_up fuel i stop step =
    (λ k : nat, i + Z.of_nat k * step) <$>
      seq 0 (Z.to_nat ((stop - i + step - 1) / step)).
Proof.
  intros Hstep. revert i.
  induction fuel as [|fuel IH]; intros i Hfuel; simpl.
  - assert ((stop - i + step - 1) / step ≤ 0) as Hz.
    { apply Z.lt_succ_r. apply Z.div_lt_upper_bound; lia. }
    by replace (Z.to_nat ((stop - i + step - 1) / step)) with 0%nat by lia.
  - destruct (Z.ltb_spec i stop) as [Hlt|Hge].
    + rewrite IH by lia.
      replace (stop - i + step - 1) with ((stop - (i + step) + step - 1) + 1 * step) by lia.
      rewrite Z.div_add by lia.
      assert (0 ≤ (stop - (i + step) + step - 1) / step)
        by (apply Z.div_pos; lia).
      rewrite Z2Nat.inj_add by lia.
      rewrite Nat.add_comm. simpl. f_equal; [lia|].
      rewrite <- fmap_S_seq, <- list_fmap_compose.
      apply list_fmap_ext. intros _ k _. simpl. lia.
    + assert ((stop - i + step - 1) / step ≤ 0) as Hz.
      { apply Z.lt_succ_r. apply Z.div_lt_upper_bound; lia. }
      by replace (Z.to_nat ((stop - i + step - 1) / step)) with 0%nat by lia.
Qed.

(** A window that starts inside the list: Python's clamping of the
    upper bound is the truncation of [take]. *)
Lemma slice_window {A} (l : list A) (i size : nat) :
  (i ≤ length l)%nat →
  slice l (Z.of_nat i) (Z.of_nat i + Z.of_nat size) = take size (drop i l).
Proof.
  intros Hi. unfold slice, slice_bound.
  destruct (Z.ltb_spec (Z.of_nat i) 0); [lia|].
  destruct (Z.ltb_spec (Z.of_nat i + Z.of_nat size) 0); [lia|].
  rewrite (Z.min_l (Z.of_nat i)) by lia. rewrite Nat2Z.id.
  destruct (Z.min_spec (Z.of_nat i + Z.of_nat size) (Z.of_nat (length l)))
    as [[? ->]|[? ->]].
  - f_equal. lia.
  - rewrite !take_ge; [done| |]; rewrite length_drop; lia.
Qed.

End Chunker.

(** C1. For a text of [W] whitespace-separated words and a configuration
    of chunk size [S] and overlap [O] with [O < S], [_create_chunks]
    returns exactly [ceil(W / (S - O))] chunks, and chunk [i] is the
    window of up to [S] consecutive words that starts at word
    [i * (S - O)], joined by single blanks.  The size is a number of
    words; the overlap is any integer below it. *)
Theorem C1_create_chunks_count_and_windows (text : string) (S : nat) (O : Z) :
  O < Z.of_nat S →
  let words := split text in
  let step := Z.to_nat (Z.of_nat S - O) in
  ∃ chunks,
    DocumentProcessor._create_chunks (DocumentProcessor.mk (Z.of_nat S) O) text
      = Ok chunks
    ∧ length chunks = ceil_div (length words) step
    ∧ ∀ i, (i < length chunks)%nat →
        chunks !! i = Some (join " " (take S (drop (i * step) words))).
Proof.
  intros HOS words step.
  assert (0 < step)%nat as Hstep by (unfold step; lia).
  unfold DocumentProcessor._create_chunks, range0. simpl.
  fold words.
  destruct (Z.eqb_spec (Z.of_nat S - O) 0) as [?|_]; [lia|].
  destruct (Z.ltb_spec (Z.of_nat S - O) 0) as [?|_]; [lia|].
  simpl. eexists. split; [reflexivity|].
  rewrite range_up_spec by lia.
  assert (Z.to_nat ((Z.of_nat (length words) - 0 + (Z.of_nat S - O) - 1)
                      / (Z.of_nat S - O))
          = ceil_div (length words) step) as ->.
  { unfold ceil_div.
    replace (Z.of_nat (length words) - 0 + (Z.of_nat S - O) - 1)
      with (Z.of_nat (length words + step - 1)) by (unfold step; lia).
    replace (Z.of_nat S - O) with (Z.of_nat step) by (unfold step; lia).
    rewrite <- Nat2Z.inj_div. apply Nat2Z.id. }
  split.
  - by rewrite !length_fmap, length_seq.
  - intros i Hi. rewrite !length_fmap, length_seq in Hi.
    rewrite !list_lookup_fmap, lookup_seq_lt by done. simpl.
    f_equal. f_equal.
    replace (0 + Z.of_nat i * (Z.of_nat S - O))
      with (Z.of_nat (i * step)) by (unfold step; nia).
    apply slice_window.
    pose proof (ceil_div_covers (length words) step Hstep).
    destruct (decide (i * step ≤ length words)%nat) as [|Hgt]; [done|].
    assert (ceil_div (length words) step ≤ i)%nat; [|lia].
    apply ceil_div_least; [done|]. lia.
Qed.

Lemma C1_witness :
  ∃ chunks,
    DocumentProcessor._create_chunks (DocumentProcessor.mk 3 1) "a b c d e f g"
      = Ok chunks
    ∧ length chunks = 4%nat
    ∧ chunks !! 3%nat = Some "g".
Proof.
  destruct (C1_create_chunks_count_and_windows "a b c d e f g" 3 1 ltac:(lia))
    as (chunks & Hrun & Hlen & Hwin).
  exists chunks. split; [exact Hrun|]. split; [exact Hlen|].
  apply (Hwin 3%nat). rewrite Hlen. vm_compute. lia.
Defined.

(** The defaults of [config.py]: 1000-word chunks that advance by 800. *)
Example chunks_with_default_configuration :
  DocumentProcessor._create_chunks DocumentProcessor.init "a b c d e f g"
  = Ok ["a b c d e f g"].
Proof. vm_compute. reflexivity. Qed.

(** Outside the statement: an overlap equal to the size is the
    [ValueError] of [range], and a negative size makes the slice count
    from the end of the list. *)
Example chunks_without_progress :
  DocumentProcessor._create_chunks (DocumentProcessor.mk 3 3) "a b c" = Raise ValueError
  ∧ DocumentProcessor._create_chunks (DocumentProcessor.mk (-1) (-2)) "a b c"
    = Ok ["a b"; ""; ""].
Proof. split; vm_compute; reflexivity. Qed.

(** ** Quiz evaluation on an empty quiz *)

(** C10. [evaluate_quiz] on a quiz without questions performs no
    division: it returns score 0, 0 questions, percentage 0, no results
    and grade "F". *)
Theorem C10_evaluate_empty_quiz (quiz : QuizGenerator.Quiz)
    (user_answers : gmap string string) :
  QuizGenerator.questions quiz = [] →
  QuizGenerator.evaluate_quiz quiz user_answers =
    Ok {| QuizGenerator.score := 0;
          QuizGenerator.total_questions := 0;
          QuizGenerator.percentage := 0;
          QuizGenerator.grade := "F";
          QuizGenerator.results := [] |}.
Proof.
  intros Hempty. unfold QuizGenerator.evaluate_quiz.
  rewrite Hempty. reflexivity.
Qed.

Lemma C10_witness :
  QuizGenerator.evaluate_quiz
    {| QuizGenerator.topic := "photosynthesis";
       QuizGenerator.num_questions := 0;
       QuizGenerator.questions := [];
       QuizGenerator.quiz_type := "mixed" |}
    (<["0" := "A"]> ∅) =
    Ok {| QuizGenerator.score := 0;
          QuizGenerator.total_questions := 0;
          QuizGenerator.percentage := 0;
          QuizGenerator.grade := "F";
          QuizGenerator.results := [] |}.
Proof.
  apply C10_evaluate_empty_quiz. reflexivity.
Defined.

(** ** Quiz generation without content *)

(** C4. When the top-10 retrieval for the topic holds no document,
    [generate_quiz] gives back the error outcome "No content found for
    this topic" and no quiz, whatever the quiz type, the requested size
    and the entropy. *)
Theorem C4_generate_quiz_no_content {Collection : Type}
    {chroma : VectorStore.Chroma Collection}
    (self : QuizGenerator.t Collection) (topic : string) (num_questions : Z)
    (quiz_type : string) (g : rng) (found : VectorStore.results) :
  VectorStore.search (QuizGenerator.vector_store self) topic 10 = Ok found →
  first (VectorStore.documents found) = Ok [] →
  QuizGenerator.generate_quiz self topic num_questions quiz_type g =
    (Ok (QuizGenerator.ErrorDict "No content found for this topic"), g)
  ∧ ∀ quiz, fst (QuizGenerator.generate_quiz self topic num_questions quiz_type g)
            ≠ Ok (QuizGenerator.QuizDict quiz).
Proof.
  intros Hsearch Hdocs.
  assert (QuizGenerator.generate_quiz self topic num_questions quiz_type g =
          (Ok (QuizGenerator.ErrorDict "No content found for this topic"), g)) as Hrun.
  { unfold QuizGenerator.generate_quiz, mbind, Rand_bind, rbind, lift.
    rewrite Hsearch, Hdocs. reflexivity. }
  split; [exact Hrun|].
  intros quiz. rewrite Hrun. simpl. discriminate.
Qed.

Lemma C4_witness :
  QuizGenerator.generate_quiz (chroma := Examples.list_chroma)
    (QuizGenerator.mk (Examples.store [])) "photosynthesis" 5 "mixed" [3; 1; 4]%nat =
  (Ok (QuizGenerator.ErrorDict "No content found for this topic"), [3; 1; 4]%nat).
Proof.
  refine (proj1 (C4_generate_quiz_no_content (chroma := Examples.list_chroma)
                   (QuizGenerator.mk (Examples.store [])) "photosynthesis" 5 "mixed"
                   [3; 1; 4]%nat (VectorStore.mk_results [[]] [[]]) _ _));
    reflexivity.
Defined.

(** ** The query history *)

(** Statements that leave the engine as it was. *)
Section Frame.
Context {Collection : Type} {chroma : VectorStore.Chroma Collection}.
Context {punkt : DifficultyAssessor.Punkt}.

Lemma read_only_reads {A} (f : RAGEngine.t Collection → PyResult A) :
  read_only (RAGEngine.reads f).
Proof. intros self. reflexivity. Qed.

Lemma read_only_and_then {A B} (m : RAGEngine.Method Collection A)
    (k : A → RAGEngine.Method Collection B) :
  read_only m → (∀ a, read_only (k a)) → read_only (RAGEngine.and_then m k).
Proof.
  intros Hm Hk self. unfold RAGEngine.and_then.
  specialize (Hm self). destruct (m self) as [self' [a|e]]; simpl in *; subst.
  - apply Hk.
  - reflexivity.
Qed.

Lemma and_then_append {B} (question : string)
    (k : () → RAGEngine.Method Collection B)
    (self : RAGEngine.t Collection) :
  (∀ u, read_only (k u)) →
  fst (RAGEngine.and_then (RAGEngine.history_append question) k self) =
  fst (RAGEngine.history_append question self).
Proof. intros Hk. unfold RAGEngine.and_then. simpl. apply Hk. Qed.

End Frame.

(** C7. A call of [query] leaves the engine with the question appended
    once at the end of the history, whether the call returns or raises;
    the earlier entries keep their positions and the vector store, the
    embedding manager and the difficulty assessor are the ones the
    engine had. *)
Theorem C7_query_appends_question {Collection : Type}
    {chroma : VectorStore.Chroma Collection} {punkt : DifficultyAssessor.Punkt}
    (self : RAGEngine.t Collection) (question : string) (n_results : Z)
    (difficulty_level : option string) :
  let after := fst (RAGEngine.query question n_results difficulty_level self) in
  RAGEngine.query_history after = RAGEngine.query_history self ++ [question]
  ∧ length (RAGEngine.query_history after) = S (length (RAGEngine.query_history self))
  ∧ (∀ i old, RAGEngine.query_history self !! i = Some old →
              RAGEngine.query_history after !! i = Some old)
  ∧ RAGEngine.vector_store after = RAGEngine.vector_store self
  ∧ RAGEngine.embedding_manager after = RAGEngine.embedding_manager self
  ∧ RAGEngine.difficulty_assessor after = RAGEngine.difficulty_assessor self.
Proof.
  intros after.
  assert (after = fst (RAGEngine.history_append question self)) as ->.
  { unfold after, RAGEngine.query. apply and_then_append. intros _.
    repeat (apply read_only_and_then; [|intros ?]);
      try apply read_only_reads.
    destruct (RAGEngine.truthy difficulty_level); apply read_only_reads. }
  simpl. repeat split.
  - rewrite length_app. simpl. lia.
  - intros i old Hold. by apply lookup_app_l_Some.
Qed.

(** The append survives a failing retrieval. *)
Example query_appends_when_search_raises :
  RAGEngine.query (chroma := Examples.failing_chroma) (punkt := Examples.dot_punkt)
    "define osmosis" 3 None (Examples.engine [] ["what is a cell"]) =
  (Examples.engine [] ["what is a cell"; "define osmosis"],
   Raise (CollaboratorError "collection unavailable")).
Proof. reflexivity. Qed.

(** ** Short answers *)

Section ShortAnswer.

Lemma key_words_as_set (X : gset string) :
  list_to_set (filter (λ word, (3 < len word)%nat) (elements X))
  = (filter (λ word, (3 < len word)%nat) X : gset string).
Proof.
  apply set_eq. intros w.
  rewrite elem_of_list_to_set, list_elem_of_filter, elem_of_elements, elem_of_filter.
  done.
Qed.

Lemma key_words_length (X : gset string) :
  length (filter (λ word, (3 < len word)%nat) (elements X))
  = size (filter (λ word, (3 < len word)%nat) X : gset string).
Proof.
  rewrite <- key_words_as_set. symmetry. apply size_list_to_set.
  apply NoDup_filter, NoDup_elements.
Qed.

(** The float comparison [m >= k * 0.3] on two counts. *)
Lemma thirty_percent (k m : nat) :
  Qle_bool (inject_Z (Z.of_nat k) * (3 # 10)) (inject_Z (Z.of_nat m)) = true
  ↔ (3 * k ≤ 10 * m)%nat.
Proof.
  rewrite Qle_bool_iff. unfold Qle. simpl. lia.
Qed.

End ShortAnswer.



(** ** Knowledge gaps *)

Section KnowledgeGaps.

Lemma occurrences_snoc (w x : string) (l : list string) :
  occurrences w (l ++ [x]) =
  (if decide (x = w) then S (occurrences w l) else occurrences w l).
Proof.
  unfold occurrences. rewrite filter_app, length_app.
  rewrite filter_cons, filter_nil.
  destruct (decide (x = w)); simpl; lia.
Qed.

Lemma get_count_bump (w w' : string) (tc : list (string * nat)) :
  get_count w' (RAGEngine.bump w tc) =
  (if decide (w = w') then S (get_count w' tc) else get_count w' tc).
Proof.
  induction tc as [|[k c] tc IH]; simpl.
  - destruct (String.eqb_spec w w'), (decide (w = w')); congruence.
  - destruct (String.eqb_spec k w) as [->|Hkw]; simpl.
    + destruct (String.eqb_spec w w'), (decide (w = w')); congruence.
    + rewrite IH.
      destruct (String.eqb_spec k w'), (decide (w = w')); congruence.
Qed.

Lemma bump_keys (w x : string) (tc : list (string * nat)) :
  x ∈ (RAGEngine.bump w tc).*1 ↔ x = w ∨ x ∈ tc.*1.
Proof.
  induction tc as [|[k c] tc IH]; simpl.
  - rewrite list_elem_of_singleton, elem_of_nil. tauto.
  - destruct (String.eqb_spec k w) as [->|Hkw]; simpl;
      rewrite !elem_of_cons; [|rewrite IH]; tauto.
Qed.

Lemma bump_NoDup (w : string) (tc : list (string * nat)) :
  NoDup tc.*1 → NoDup (RAGEngine.bump w tc).*1.
Proof.
  induction tc as [|[k c] tc IH]; simpl; intros Hnd.
  - apply NoDup_singleton.
  - apply NoDup_cons in Hnd as [Hk Hnd].
    destruct (String.eqb_spec k w) as [->|Hkw]; simpl.
    + by apply NoDup_cons.
    + apply NoDup_cons. split; [|by apply IH].
      rewrite bump_keys. intros [?|?]; [congruence|done].
Qed.

Lemma bump_positive (w : string) (tc : list (string * nat)) :
  Forall (λ p, (0 < p.2)%nat) tc → Forall (λ p, (0 < p.2)%nat) (RAGEngine.bump w tc).
Proof.
  induction tc as [|[k c] tc IH]; simpl; intros Hpos.
  - repeat constructor.
  - apply Forall_cons in Hpos as [Hc Hpos].
    destruct (String.eqb_spec k w); constructor; simpl in *; auto with lia.
Qed.

(** A table with distinct keys is read by [get_count]. *)
Lemma elem_of_table (w : string) (c : nat) (tc : list (string * nat)) :
  NoDup tc.*1 → Forall (λ p, (0 < p.2)%nat) tc →
  (w, c) ∈ tc ↔ (0 < c)%nat ∧ c = get_count w tc.
Proof.
  induction tc as [|[k n] tc IH]; simpl; intros Hnd Hpos.
  - rewrite elem_of_nil. lia.
  - apply NoDup_cons in Hnd as [Hk Hnd].
    apply Forall_cons in Hpos as [Hn Hpos]. simpl in Hn.
    rewrite elem_of_cons, IH by done.
    destruct (String.eqb_spec k w) as [->|Hkw].
    + split.
      * intros [Heq|[Hc ->]]; [by simplify_eq|].
        exfalso. apply Hk. apply list_elem_of_fmap.
        exists (w, get_count w tc). split; [done|].
        apply IH; done.
      * intros [Hc ->]. by left.
    + split.
      * intros [Heq|?]; [by simplify_eq|done].
      * intros ?. by right.
Qed.

Lemma count_words_counts (words seen : list string) (tc : list (string * nat)) :
  counts seen tc → counts (seen ++ words) (RAGEngine.count_words words tc).
Proof.
  revert seen tc. induction words as [|x words IH]; intros seen tc Htc.
  - by rewrite app_nil_r.
  - unfold RAGEngine.count_words. simpl.
    replace (seen ++ x :: words) with ((seen ++ [x]) ++ words)
      by (by rewrite <- app_assoc).
    apply IH. destruct Htc as (Hnd & Hpos & Hget).
    destruct (Nat.ltb_spec 3 (len x)) as [Hlong|Hshort].
    + split; [by apply bump_NoDup|]. split; [by apply bump_positive|].
      intros w. rewrite get_count_bump, occurrences_snoc, Hget.
      destruct (decide (x = w)) as [->|]; [|done].
      by rewrite !decide_True by done.
    + split; [done|]. split; [done|].
      intros w. rewrite Hget, occurrences_snoc.
      destruct (decide (x = w)) as [->|]; [|done].
      by rewrite !decide_False by lia.
Qed.

Lemma extract_as_count_words (queries : list string) (tc : list (string * nat)) :
  foldl (λ tc query, RAGEngine.count_words (findall_words (lower query)) tc)
        tc queries
  = RAGEngine.count_words (history_words queries) tc.
Proof.
  revert tc. induction queries as [|q queries IH]; intros tc; simpl.
  - reflexivity.
  - rewrite IH. unfold history_words, RAGEngine.count_words. simpl.
    by rewrite foldl_app.
Qed.

(** The stable descending sort. *)
Lemma insert_desc_perm {A} (key : A → nat) (x : A) (l : list A) :
  insert_desc key x l ≡ₚ x :: l.
Proof.
  induction l as [|y l IH]; simpl; [done|].
  destruct (key x <? key y)%nat; [|done].
  rewrite IH. apply Permutation_swap.
Qed.

Lemma sorted_desc_perm {A} (key : A → nat) (l : list A) :
  sorted_desc key l ≡ₚ l.
Proof.
  induction l as [|x l IH]; simpl; [done|].
  unfold sorted_desc in *. simpl. by rewrite insert_desc_perm, IH.
Qed.

Lemma insert_desc_sorted {A} (key : A → nat) (x : A) (l : list A) :
  StronglySorted (λ a b, (key b ≤ key a)%nat) l →
  StronglySorted (λ a b, (key b ≤ key a)%nat) (insert_desc key x l).
Proof.
  induction l as [|y l IH]; simpl; intros Hs.
  - repeat constructor.
  - apply StronglySorted_inv in Hs as [Hs Hy].
    destruct (Nat.ltb_spec (key x) (key y)) as [Hlt|Hge].
    + constructor; [by apply IH|].
      rewrite insert_desc_perm. constructor; [lia|done].
    + constructor; [by constructor|].
      constructor; [done|].
      eapply Forall_impl; [exact Hy|]. simpl. lia.
Qed.

Lemma sorted_desc_sorted {A} (key : A → nat) (l : list A) :
  StronglySorted (λ a b, (key b ≤ key a)%nat) (sorted_desc key l).
Proof.
  induction l as [|x l IH]; simpl; [constructor|].
  by apply insert_desc_sorted.
Qed.

End KnowledgeGaps.

(** C6. With fewer than five questions in the history
    [find_knowledge_gaps] returns the one prompting message, whatever
    the questions are.  Otherwise there is a ranking of the words longer
    than three characters that occur in the questions, each with its
    number of occurrences over the whole history, in descending order of
    that number; the result holds one message for each of the first five
    entries of the ranking whose count is at least 3, and is the one
    no-weak-areas message when there is none. *)
Theorem C6_find_knowledge_gaps {Collection : Type} (self : RAGEngine.t Collection) :
  let history := RAGEngine.query_history self in
  ((length history < 5)%nat →
   RAGEngine.find_knowledge_gaps self =
     ["Upload more documents and ask more questions to identify knowledge gaps!"])
  ∧ ((5 ≤ length history)%nat →
     ∃ ranked : list (string * nat),
       NoDup ranked.*1
       ∧ (∀ w c, (w, c) ∈ ranked ↔
            (3 < len w)%nat ∧ (0 < c)%nat ∧ c = occurrences w (history_words history))
       ∧ StronglySorted (λ a b, (b.2 ≤ a.2)%nat) ranked
       ∧ let weak_areas :=
           (λ tc, RAGEngine.weak_area_message tc.1 tc.2) <$>
             filter (λ tc, (3 ≤ tc.2)%nat) (take 5 ranked) in
         RAGEngine.find_knowledge_gaps self =
           if decide (weak_areas = [])
           then ["No specific weak areas identified yet"]
           else weak_areas).
Proof.
  intros history. unfold RAGEngine.find_knowledge_gaps. fold history. split.
  - intros Hshort. by destruct (Nat.ltb_spec (length history) 5); [|lia].
  - intros Hlong. destruct (Nat.ltb_spec (length history) 5); [lia|].
    set (table := RAGEngine._extract_common_topics self history).
    assert (counts (history_words history) table) as (Hnd & Hpos & Hget).
    { unfold table, RAGEngine._extract_common_topics.
      rewrite extract_as_count_words.
      apply (count_words_counts _ [] []).
      split; [constructor|]. split; [constructor|].
      intros w. simpl. by destruct (decide _). }
    exists (sorted_desc snd table).
    pose proof (sorted_desc_perm snd table) as Hperm.
    split; [by rewrite Hperm|]. split; [|split].
    + intros w c. rewrite Hperm, elem_of_table, Hget by done.
      destruct (decide (3 < len w)%nat); lia.
    + apply sorted_desc_sorted.
    + unfold RAGEngine._identify_weak_areas. simpl.
      match goal with |- match ?l with [] => _ | _ :: _ => _ end = _ =>
        destruct l end; [by rewrite decide_True|by rewrite decide_False].
Qed.

Lemma C6_witness :
  RAGEngine.find_knowledge_gaps
    (Examples.engine [] ["cells"; "cells"; "cells"; "cells"])
  = ["Upload more documents and ask more questions to identify knowledge gaps!"]
  ∧ ∃ ranked : list (string * nat),
      (∀ w c, (w, c) ∈ ranked ↔
         (3 < len w)%nat ∧ (0 < c)%nat
         ∧ c = occurrences w
                 (history_words
                    ["what is osmosis"; "osmosis in cells"; "why osmosis";
                     "cells"; "is it osmosis"]))
      ∧ ("osmosis", 4%nat) ∈ ranked.
Proof.
  split.
  - apply (C6_find_knowledge_gaps
             (Examples.engine [] ["cells"; "cells"; "cells"; "cells"])).
    vm_compute. lia.
  - destruct (proj2 (C6_find_knowledge_gaps
                       (Examples.engine []
                          ["what is osmosis"; "osmosis in cells"; "why osmosis";
                           "cells"; "is it osmosis"])))
      as (ranked & _ & Hcounts & _ & _).
    { vm_compute. lia. }
    exists ranked. split; [exact Hcounts|].
    apply Hcounts. vm_compute. repeat split; lia.
Defined.

(** Five questions with two recurring topics. *)
Example knowledge_gaps_of_five_questions :
  RAGEngine.find_knowledge_gaps
    (Examples.engine []
       ["what is osmosis"; "osmosis in cells"; "why osmosis"; "cells";
        "do cells have walls"]) =
  [ "You've asked about 'osmosis' 3 times - consider reviewing this topic";
    "You've asked about 'cells' 3 times - consider reviewing this topic" ].
Proof. vm_compute. reflexivity. Qed.

(** ** Simplified explanations *)

(** C8 as stated fails: when the first sentence of the context is long
    and three short ones follow, the response holds the two short
    sentences among the first three, not the first three short ones. *)
Lemma C8_counterexample :
  ∃ response found level,
    RAGEngine.explain_like_im_five (chroma := Examples.list_chroma)
      (Examples.engine [long_first_chunk] []) "what is photosynthesis"
    = Ok (RAGEngine.Explained "what is photosynthesis" response found level)
    ∧ response = simple_heading +:+ "It needs light. It makes sugar."
    ∧ claimed_simplified_explanation (join " " [long_first_chunk])
      = simple_heading +:+ "It needs light. It makes sugar. It frees oxygen."
    ∧ response ≠ claimed_simplified_explanation (join " " [long_first_chunk]).
Proof.
  eexists _, _, _. split; [vm_compute; reflexivity|].
  split; [vm_compute; reflexivity|].
  split; [vm_compute; reflexivity|].
  vm_compute. discriminate.
Qed.

(** C8, amended.  [explain_like_im_five] asks the store for two chunks.
    With no chunk found it returns the fixed not-found message.
    Otherwise it looks only at the first three '.'-separated sentences
    of the blank-joined chunks: the response holds those of the three
    that have fewer than 20 words, stripped and joined with ". ", and
    falls back to the first 200 characters of the context when none of
    the three has. *)
Theorem C8_explain_first_three_sentences {Collection : Type}
    {chroma : VectorStore.Chroma Collection}
    (self : RAGEngine.t Collection) (question : string)
    (found : VectorStore.results) (docs : list string) :
  VectorStore.search (RAGEngine.vector_store self) question 2 = Ok found →
  first (VectorStore.documents found) = Ok docs →
  (docs = [] →
   RAGEngine.explain_like_im_five self question =
     Ok (RAGEngine.NotFound
           "I couldn't find information about that topic. Try uploading more study materials!"))
  ∧ (docs ≠ [] →
     let context := join " " docs in
     let simple_sentences :=
       filter short_sentence (take 3 (split_on "." context)) in
     ∃ response,
       RAGEngine.explain_like_im_five self question =
         Ok (RAGEngine.Explained question response found "beginner")
       ∧ (simple_sentences ≠ [] →
          response = simple_heading +:+ join ". " (strip <$> simple_sentences) +:+ ".")
       ∧ (simple_sentences = [] →
          response = fallback_heading +:+ prefix_of 200 context +:+ "...")).
Proof.
  intros Hsearch Hdocs.
  assert (RAGEngine.explain_like_im_five self question =
          match docs with
          | [] => Ok (RAGEngine.NotFound
                        "I couldn't find information about that topic. Try uploading more study materials!")
          | _ :: _ =>
              Ok (RAGEngine.Explained question
                    (RAGEngine._create_simplified_explanation self question
                       (join " " docs)) found "beginner")
          end) as ->.
  { unfold RAGEngine.explain_like_im_five.
    rewrite Hsearch. cbn [mbind PyResult_bind Py.bind].
    rewrite Hdocs. cbn [mbind PyResult_bind Py.bind]. by destruct docs. }
  split.
  - intros ->. reflexivity.
  - intros Hne context simple_sentences.
    destruct docs as [|d docs]; [done|]. fold context.
    eexists. split; [reflexivity|].
    unfold RAGEngine._create_simplified_explanation.
    fold short_sentence. fold simple_sentences.
    destruct simple_sentences as [|s ss]; split; done.
Qed.

Lemma C8_witness :
  RAGEngine.explain_like_im_five (chroma := Examples.list_chroma)
    (Examples.engine [] []) "what is photosynthesis"
  = Ok (RAGEngine.NotFound
          "I couldn't find information about that topic. Try uploading more study materials!")
  ∧ ∃ response,
      RAGEngine.explain_like_im_five (chroma := Examples.list_chroma)
        (Examples.engine [long_first_chunk] []) "what is photosynthesis"
      = Ok (RAGEngine.Explained "what is photosynthesis" response
              (VectorStore.mk_results [[long_first_chunk]] [[]]) "beginner")
      ∧ response = simple_heading +:+ "It needs light. It makes sugar.".
Proof.
  split.
  - refine (proj1 (C8_explain_first_three_sentences (chroma := Examples.list_chroma)
                     (Examples.engine [] []) "what is photosynthesis"
                     (VectorStore.mk_results [[]] [[]]) [] _ _) _); reflexivity.
  - destruct (proj2 (C8_explain_first_three_sentences (chroma := Examples.list_chroma)
                       (Examples.engine [long_first_chunk] []) "what is photosynthesis"
                       (VectorStore.mk_results [[long_first_chunk]] [[]])
                       [long_first_chunk] eq_refl eq_refl) ltac:(discriminate))
      as (response & Hrun & Hsimple & _).
    exists response. split; [exact Hrun|].
    rewrite Hsimple; [vm_compute; reflexivity|vm_compute; discriminate].
Defined.

(** ** Substrings and replacement *)

Section Substrings.

Lemma str_app_nil_l (t : string) : EmptyString +:+ t = t.
Proof. reflexivity. Qed.

Lemma str_app_cons (c : ascii) (s t : string) :
  String c s +:+ t = String c (s +:+ t).
Proof. reflexivity. Qed.

Lemma str_app_assoc (a b c : string) : (a +:+ b) +:+ c = a +:+ b +:+ c.
Proof.
  induction a as [|x a IH]; [done|].
  by rewrite !str_app_cons, IH.
Qed.

Lemma startswith_spec (p s : string) :
  startswith p s = true ↔ ∃ post, s = p +:+ post.
Proof.
  revert s. induction p as [|a p IH]; intros s; simpl.
  - split; [intros _; by exists s|done].
  - destruct s as [|b s].
    + split; [done|]. intros [post Hpost]. by rewrite str_app_cons in Hpost.
    + rewrite andb_true_iff, bool_decide_eq_true, IH. split.
      * intros [-> [post ->]]. by exists post.
      * intros [post Hpost]. rewrite str_app_cons in Hpost.
        simplify_eq. split; [done|]. by exists post.
Qed.

Lemma skip_prefix (p post : string) : skip (len p) (p +:+ post) = post.
Proof. induction p as [|a p IH]; simpl; [by destruct post|done]. Qed.

Lemma contains_spec (p s : string) : contains p s = true ↔ occurs p s.
Proof.
  induction s as [|c s IH].
  - simpl. rewrite orb_false_r, startswith_spec. split.
    + intros [post Hpost]. by exists EmptyString, post.
    + intros ([|? pre] & post & Hs); [by exists post|].
      by rewrite str_app_cons in Hs.
  - simpl contains. rewrite orb_true_iff, startswith_spec, IH. split.
    + intros [[post Hpost]|(pre & post & ->)].
      * by exists EmptyString, post.
      * by exists (String c pre), post.
    + intros ([|x pre] & post & Hs).
      * left. by exists post.
      * right. rewrite str_app_cons in Hs. simplify_eq. by exists pre, post.
Qed.

(** [replace_first] rewrites the leftmost occurrence. *)
Lemma replace_first_spec (old new s : string) :
  old ≠ EmptyString → occurs old s →
  ∃ pre post,
    s = pre +:+ old +:+ post
    ∧ (∀ pre' post', s = pre' +:+ old +:+ post' → (len pre ≤ len pre')%nat)
    ∧ replace_first old new s = pre +:+ new +:+ post.
Proof.
  intros Hold. induction s as [|c s IH]; intros Hocc.
  - destruct Hocc as ([|? pre] & post & Hs); [|by rewrite str_app_cons in Hs].
    destruct old; [done|by rewrite str_app_nil_l, str_app_cons in Hs].
  - simpl replace_first.
    destruct (startswith old (String c s)) eqn:Hstart.
    + apply startswith_spec in Hstart as [post Hpost].
      exists EmptyString, post. split; [done|]. split.
      * intros pre' post' _. simpl. lia.
      * by rewrite Hpost, skip_prefix.
    + assert (occurs old s) as Hocc'.
      { destruct Hocc as ([|x pre] & post & Hs).
        - assert (startswith old (String c s) = true) as Hyes
            by (apply startswith_spec; by exists post).
          congruence.
        - rewrite str_app_cons in Hs. simplify_eq. by exists pre, post. }
      destruct (IH Hocc') as (pre & post & Hs & Hleft & Hrep).
      exists (String c pre), post. split; [by rewrite Hs|]. split.
      * intros [|x pre'] post' Hs'.
        -- assert (startswith old (String c s) = true) as Hyes
             by (apply startswith_spec; by exists post').
           congruence.
        -- rewrite str_app_cons in Hs'. simplify_eq. simpl.
           apply le_n_S, (Hleft pre' post'). done.
      * by rewrite Hrep.
Qed.

End Substrings.

(** ** True/false questions *)

Section TrueFalse.

Lemma modify_with_spec (pairs : list (string * string)) (sentence : string) :
  Forall (λ p, p.1 ≠ EmptyString) pairs →
  negated_by pairs sentence (QuizGenerator.modify_with pairs sentence).
Proof.
  induction pairs as [|[original replacement] pairs IH]; intros Hne.
  - right. by split.
  - apply Forall_cons in Hne as [Hne0 Hne]. simpl in Hne0. simpl.
    destruct (contains original (lower sentence)) eqn:Hin.
    + apply contains_spec in Hin.
      destruct (replace_first_spec original replacement _ Hne0 Hin)
        as (pre & post & Hs & Hleft & Hrep).
      left. exists [], original, replacement, pairs, pre, post.
      repeat split; [constructor|done..].
    + assert (¬ occurs original (lower sentence)) as Hnot.
      { rewrite <- contains_spec. congruence. }
      destruct (IH Hne) as
        [(before & o & r & after & pre & post & -> & Hb & Hs & Hleft & Htext)
        |[Hnone Htext]].
      * left. exists ((original, replacement) :: before), o, r, after, pre, post.
        repeat split; [by constructor|done..].
      * right. split; [by constructor|done].
Qed.

(** A loop whose every round appends one question built from the
    sentence at its index. *)
Lemma for_each_items (f : nat → string → QuizGenerator.Question)
    (sentences : list string) (start k : nat)
    (questions : list QuizGenerator.Question) (g : rng) :
  (start + k ≤ length sentences)%nat →
  QuizGenerator.for_each
    (λ i, sentence ← lift (item sentences i); mret (Some (f i sentence)))
    (seq start k) questions g
  = (Ok (questions ++
         imap (λ j, f (start + j)%nat) (take k (drop start sentences))), g).
Proof.
  revert start questions. induction k as [|k IH]; intros start questions Hk.
  - simpl. by rewrite app_nil_r.
  - destruct (lookup_lt_is_Some_2 sentences start ltac:(lia)) as [sentence Hs].
    rewrite (drop_S _ _ _ Hs). simpl.
    unfold mbind at 1, Rand_bind, rbind. unfold mbind at 1, Rand_bind, rbind.
    unfold lift, item. rewrite Hs. simpl.
    rewrite IH by lia. rewrite <- app_assoc. simpl.
    rewrite Nat.add_0_r. do 4 f_equal.
    apply imap_ext. intros j x _. simpl. f_equal. lia.
Qed.

Lemma generate_true_false_closed (content : string) (num_questions : Z) (g : rng) :
  let sentences := QuizGenerator.candidate_sentences content in
  QuizGenerator._generate_true_false content num_questions g
  = (Ok (imap QuizGenerator.true_false_item
           (take (Z.to_nat num_questions) sentences)), g).
Proof.
  intros sentences. unfold QuizGenerator._generate_true_false. fold sentences.
  unfold range, QuizGenerator.loop_bound.
  rewrite for_each_items by lia.
  rewrite drop_0. simpl. do 2 f_equal.
  destruct (Z.min_spec num_questions (Z.of_nat (length sentences)))
    as [[? ->]|[? ->]]; [done|].
  rewrite Nat2Z.id, !take_ge; [done|lia..].
Qed.

End TrueFalse.

Lemma parity_test (i : nat) : (i mod 2 =? 0)%nat = Nat.even i.
Proof.
  destruct (Nat.even i) eqn:Hi.
  - apply Nat.even_spec in Hi as [m ->]. apply Nat.eqb_eq.
    rewrite Nat.mul_comm. apply Nat.Div0.mod_mul.
  - apply Nat.eqb_neq. intros Hmod.
    assert (Nat.even i = true) as Hyes; [|congruence].
    apply Nat.even_spec. exists (i / 2)%nat.
    pose proof (Nat.div_mod i 2 ltac:(lia)). lia.
Qed.

(** C3 as stated fails: the false statement is built from the
    lower-cased sentence, so a sentence with a capital letter does not
    come back as that sentence with the substitution applied. *)
Lemma C3_counterexample :
  let content :=
    "Plants make sugar from light and water. The cell is alive and growing." in
  QuizGenerator.candidate_sentences content
    = ["Plants make sugar from light and water"; "The cell is alive and growing"]
  ∧ QuizGenerator._generate_true_false content 2 []
    = (Ok [ QuizGenerator.TrueFalse
              "True or False: Plants make sugar from light and water" "True";
            QuizGenerator.TrueFalse
              "True or False: the cell is not alive and growing" "False" ], [])
  ∧ claimed_modify_with QuizGenerator.modifications "The cell is alive and growing"
    = "The cell is not alive and growing"
  ∧ "the cell is not alive and growing"
    ≠ claimed_modify_with QuizGenerator.modifications "The cell is alive and growing".
Proof.
  repeat split; try (vm_compute; reflexivity).
  vm_compute. discriminate.
Qed.

(** C3, amended.  [_generate_true_false] returns one question for each
    of the first [min(n, len)] candidate sentences.  Question [i] is
    labelled "True" exactly when [i] is even and then states the
    sentence itself.  For an odd [i] the label is "False" and the
    statement is the lower-cased sentence in which the leftmost
    occurrence of the first phrase of the ordered list (is, was, can,
    will, should) that occurs in it as a substring is replaced by its
    negation; when no phrase occurs the statement is the sentence
    unchanged, in its original case. *)
Theorem C3_true_false_labels_and_negation (content : string)
    (num_questions : Z) (g : rng) :
  let sentences := QuizGenerator.candidate_sentences content in
  ∃ qs,
    QuizGenerator._generate_true_false content num_questions g = (Ok qs, g)
    ∧ length qs = Z.to_nat (Z.min num_questions (Z.of_nat (length sentences)))
    ∧ ∀ i q, qs !! i = Some q →
        ∃ sentence text,
          sentences !! i = Some sentence
          ∧ q = QuizGenerator.TrueFalse ("True or False: " +:+ text)
                  (if Nat.even i then "True" else "False")
          ∧ (Nat.even i = true → text = sentence)
          ∧ (Nat.even i = false →
             negated_by QuizGenerator.modifications sentence text).
Proof.
  intros sentences. eexists. split; [apply generate_true_false_closed|].
  fold sentences. split.
  - rewrite length_imap, length_take. lia.
  - intros i q Hq. rewrite list_lookup_imap in Hq.
    destruct (take (Z.to_nat num_questions) sentences !! i) as [sentence|] eqn:Hs;
      [|done].
    apply lookup_take_Some in Hs as [Hs _]. simpl in Hq. simplify_eq.
    unfold QuizGenerator.true_false_item. rewrite parity_test.
    destruct (Nat.even i); simpl.
    + exists sentence, sentence. repeat split; done.
    + exists sentence, (QuizGenerator._modify_sentence_for_false sentence).
      split; [done|]. split; [done|]. split; [done|]. intros _.
      apply modify_with_spec. repeat constructor; done.
Qed.

Lemma C3_witness :
  ∃ qs,
    QuizGenerator._generate_true_false
      "Plants make sugar from light and water. The cell is alive and growing."
      5 [7]%nat
    = (Ok qs, [7]%nat)
    ∧ length qs = 2%nat
    ∧ ∃ sentence text,
        QuizGenerator.candidate_sentences
          "Plants make sugar from light and water. The cell is alive and growing."
          !! 1%nat = Some sentence
        ∧ qs !! 1%nat
          = Some (QuizGenerator.TrueFalse ("True or False: " +:+ text) "False")
        ∧ negated_by QuizGenerator.modifications sentence text.
Proof.
  destruct (C3_true_false_labels_and_negation
              "Plants make sugar from light and water. The cell is alive and growing."
              5 [7]%nat) as (qs & Hrun & Hlen & Hqs).
  exists qs. split; [exact Hrun|]. split; [exact Hlen|].
  assert (is_Some (qs !! 1%nat)) as [q Hq]
    by (apply lookup_lt_is_Some; rewrite Hlen; vm_compute; lia).
  destruct (Hqs 1%nat q Hq) as (sentence & text & Hs & -> & _ & Hneg).
  exists sentence, text. split; [exact Hs|]. split; [exact Hq|].
  apply Hneg. reflexivity.
Defined.

(** ** The [random] module keeps the elements of a list *)

Section Shuffle.
Context {A : Type}.

Lemma randbelow_lt (n : nat) (g : rng) : (0 < n)%nat → (fst (randbelow n g) < n)%nat.
Proof.
  intros Hn. destruct g as [|r g]; simpl; [done|].
  apply Nat.mod_upper_bound. lia.
Qed.

Lemma choice_elem_of (l : list A) (g : rng) (x : A) (g' : rng) :
  choice l g = (Ok x, g') → x ∈ l.
Proof.
  unfold choice. destruct l as [|a l]; [done|].
  destruct (randbelow (length (a :: l)) g) as [i g0].
  destruct ((a :: l) !! i) as [y|] eqn:Hy; [|done].
  intros [= <- _]. by eapply list_elem_of_lookup_2.
Qed.

Lemma swap_length (i j : nat) (l : list A) : length (swap i j l) = length l.
Proof.
  unfold swap. destruct (l !! i), (l !! j); try done.
  by rewrite !length_insert.
Qed.

Lemma swap_elem_of (i j : nat) (l : list A) (z : A) : z ∈ swap i j l ↔ z ∈ l.
Proof.
  unfold swap.
  destruct (l !! i) as [x|] eqn:Hx; [|done].
  destruct (l !! j) as [y|] eqn:Hy; [|done].
  pose proof (lookup_lt_Some _ _ _ Hx) as Hi.
  pose proof (lookup_lt_Some _ _ _ Hy) as Hj.
  rewrite !list_elem_of_lookup. split.
  - intros [k Hk]. destruct (decide (k = i)) as [->|Hki].
    + rewrite list_lookup_insert_eq in Hk by (by rewrite length_insert).
      simplify_eq. by exists j.
    + rewrite list_lookup_insert_ne in Hk by done.
      destruct (decide (k = j)) as [->|Hkj].
      * rewrite list_lookup_insert_eq in Hk by done. simplify_eq. by exists i.
      * rewrite list_lookup_insert_ne in Hk by done. by exists k.
  - intros [k Hk]. destruct (decide (k = i)) as [->|Hki].
    + simplify_eq. destruct (decide (i = j)) as [->|Hij].
      * exists j. rewrite list_lookup_insert_eq by (by rewrite length_insert).
        congruence.
      * exists j. rewrite list_lookup_insert_ne by done.
        by rewrite list_lookup_insert_eq.
    + destruct (decide (k = j)) as [->|Hkj].
      * simplify_eq. exists i.
        by rewrite list_lookup_insert_eq by (by rewrite length_insert).
      * exists k. by rewrite !list_lookup_insert_ne.
Qed.

Lemma shuffle_from_keeps (i : nat) (l : list A) (g : rng) :
  length (fst (shuffle_from i l g)) = length l
  ∧ ∀ z, z ∈ fst (shuffle_from i l g) ↔ z ∈ l.
Proof.
  revert l g. induction i as [|i IH]; intros l g; simpl; [done|].
  destruct (randbelow (S (S i)) g) as [j g0].
  destruct (IH (swap (S i) j l) g0) as [Hlen Hin]. split.
  - by rewrite Hlen, swap_length.
  - intros z. by rewrite Hin, swap_elem_of.
Qed.

Lemma rshuffle_keeps (l l' : list A) (g g' : rng) :
  rshuffle l g = (Ok l', g') →
  length l' = length l ∧ ∀ z, z ∈ l' ↔ z ∈ l.
Proof.
  unfold rshuffle, shuffle. intros Hrun.
  pose proof (shuffle_from_keeps (pred (length l)) l g) as Hkeeps.
  destruct (shuffle_from (pred (length l)) l g) as [l0 g0].
  by simplify_eq.
Qed.

Lemma index_lookup `{EqDecision A} (x : A) (l : list A) :
  x ∈ l → ∃ i, index x l = Ok i ∧ l !! i = Some x.
Proof.
  induction l as [|y l IH]; intros Hin; [by apply elem_of_nil in Hin|].
  simpl. destruct (decide (y = x)) as [->|Hne]; [by exists 0%nat|].
  apply elem_of_cons in Hin as [?|Hin]; [congruence|].
  destruct (IH Hin) as (i & -> & Hi). by exists (S i).
Qed.

End Shuffle.

(** ** Multiple-choice questions *)

Section MultipleChoice.
Import QuizGenerator.


Lemma for_each_invariant (P : Question → Prop)
    (body : nat → Rand (option Question)) (idxs : list nat)
    (questions : list Question) (g : rng) (qs : list Question) (g' : rng) :
  (∀ i g q g', body i g = (Ok (Some q), g') → P q) →
  Forall P questions →
  for_each body idxs questions g = (Ok qs, g') →
  Forall P qs.
Proof.
  intros Hbody. revert questions g.
  induction idxs as [|i idxs IH]; intros questions g Hacc; simpl.
  - by intros [= <- _].
  - unfold mbind, Rand_bind, rbind.
    destruct (body i g) as [[[q|]|e] g1] eqn:Hq; [| |done].
    + apply IH. apply Forall_app. split; [done|].
      repeat constructor. by eapply Hbody.
    + by apply IH.
Qed.






End MultipleChoice.

(** ** Marking answers *)

Section Marking.
Import QuizGenerator.

Lemma truediv_nonzero (a b : Z) :
  b ≠ 0 → truediv a b = Ok (inject_Z a / inject_Z b)%Q.
Proof.
  intros Hb. unfold truediv, fdiv.
  destruct (Qeq_bool (inject_Z b) 0) eqn:Hzero; [|done].
  apply Qeq_bool_eq in Hzero. unfold Qeq in Hzero. simpl in Hzero. lia.
Qed.

Lemma evaluate_loop_results (user_answers : gmap string string) (i : nat)
    (qs : list Question) (score : Z) (results : list Result) :
  snd (evaluate_loop user_answers i qs score results)
  = results ++ imap (λ k, marked user_answers (i + k)) qs.
Proof.
  revert i score results. induction qs as [|q qs IH]; intros i score results.
  - simpl. by rewrite app_nil_r.
  - simpl. rewrite IH, <- app_assoc. simpl. rewrite Nat.add_0_r.
    do 2 f_equal. apply imap_ext. intros k x _. simpl.
    by rewrite Nat.add_succ_r.
Qed.




End Marking.




(** ** The difficulty score *)

Section Difficulty.
Import DifficultyAssessor.

Lemma vowel_groups_ge (w : string) (prev : bool) (n : Z) :
  n ≤ vowel_groups w prev n.
Proof.
  revert prev n. induction w as [|c w IH]; intros prev n; simpl; [lia|].
  destruct (is_vowel c).
  - destruct prev; [apply IH|]. pose proof (IH true (n + 1)). lia.
  - apply IH.
Qed.

(** A word that ends in "e" has a vowel group to its name, so the
    decrement never goes below zero. *)
Lemma vowel_groups_final_e (w : string) (prev : bool) (n : Z) :
  endswith_char "e" w = true →
  (prev = true → 1 ≤ n) → 0 ≤ n →
  1 ≤ vowel_groups (lower w) prev n.
Proof.
  revert prev n. induction w as [|c w IH]; intros prev n Hend Hprev Hn; [done|].
  destruct w as [|d w].
  - simpl in Hend. apply bool_decide_eq_true in Hend as ->.
    simpl. destruct prev; [by apply Hprev|lia].
  - change (vowel_groups (lower (String c (String d w))) prev n)
      with (if is_vowel (lower_char c)
            then vowel_groups (lower (String d w)) true
                   (if prev then n else n + 1)
            else vowel_groups (lower (String d w)) false n).
    destruct (is_vowel (lower_char c)).
    + apply IH; [done| |destruct prev; lia].
      intros _. destruct prev; [by apply Hprev|lia].
    + apply IH; [done|done|done].
Qed.

Lemma count_syllables_pos (word : string) : 1 ≤ _count_syllables word.
Proof.
  unfold _count_syllables.
  pose proof (vowel_groups_ge (lower word) false 0) as Hge.
  destruct (endswith_char "e" word) eqn:Hend.
  - pose proof (vowel_groups_final_e word false 0 Hend ltac:(done) ltac:(lia)).
    destruct (Z.eqb_spec (vowel_groups (lower word) false 0 - 1) 0); lia.
  - destruct (Z.eqb_spec (vowel_groups (lower word) false 0) 0); lia.
Qed.

Lemma sum_syllables_nonneg (words : list string) :
  0 ≤ sum_Z (_count_syllables <$> words).
Proof.
  induction words as [|w words IH]; [done|].
  rewrite fmap_cons. unfold sum_Z in *. cbn [foldr].
  pose proof (count_syllables_pos w). lia.
Qed.

(** A guarded ratio [a / len(l) if l else 0] of a non-negative [a]. *)
Lemma guarded_ratio_nonneg {A} (l : list A) (a : Z) :
  0 ≤ a →
  ∃ q, match l with
       | [] => mret 0%Q
       | _ :: _ => truediv a (Z.of_nat (length l))
       end = Ok q ∧ (0 <= q)%Q.
Proof.
  intros Ha. destruct l as [|x l].
  - by exists 0%Q.
  - rewrite truediv_nonzero by (simpl; lia).
    eexists. split; [reflexivity|].
    apply Qmult_le_0_compat.
    + by apply (Qle_trans _ (inject_Z 0)); [|rewrite <- Zle_Qle].
    + apply Qinv_le_0_compat.
      apply (Qle_trans _ (inject_Z 0)); [done|]. rewrite <- Zle_Qle. lia.
Qed.

Lemma Qplus_nonneg (a b : Q) : (0 <= a)%Q → (0 <= b)%Q → (0 <= a + b)%Q.
Proof.
  intros Ha Hb. apply (Qle_trans _ (0 + 0)); [done|].
  by apply Qplus_le_compat.
Qed.


Lemma min_float_range (x : Q) :
  (0 <= x)%Q → (0 <= min_float 1 x)%Q ∧ (min_float 1 x <= 1)%Q.
Proof.
  intros Hx. unfold min_float. destruct (Qle_bool 1 x) eqn:Hle.
  - split; [done|apply Qle_refl].
  - split; [done|].
    assert (¬ (1 <= x)%Q) as Hnle by (rewrite <- Qle_bool_iff; congruence).
    apply Qlt_le_weak. by apply Qnot_le_lt.
Qed.

End Difficulty.


(** The sample of the specification: a short sentence without technical
    terms scores below 0.3. *)
Example score_of_the_cat_sat :
  ∃ score,
    DifficultyAssessor.assess_text_difficulty (punkt := Examples.dot_punkt)
      DifficultyAssessor.init "The cat sat." = Ok score
    ∧ (score == 9 # 1000)%Q.
Proof. eexists. split; vm_compute; reflexivity. Qed.

(** * Further properties of the code *)

(** ** Words and blanks *)

Section Words.

Lemma str_app_nil_r (s : string) : s +:+ EmptyString = s.
Proof. induction s as [|c s IH]; [done|]. by rewrite str_app_cons, IH. Qed.

Lemma split_space (c : ascii) (rest : string) :
  isspace c = true → split (String c rest) = split rest.
Proof. intros Hc. simpl. by rewrite Hc. Qed.

Lemma split_wordlike (s : string) : Forall wordlike (split s).
Proof.
  induction s as [|c rest IH]; [constructor|].
  simpl. destruct (isspace c) eqn:Hc; [done|].
  assert (wordlike (String c EmptyString)) as Hone.
  { split; [done|]. simpl. by rewrite Hc. }
  destruct rest as [|d rest']; [by apply Forall_singleton|].
  destruct (isspace d) eqn:Hd; [by constructor|].
  destruct (split (String d rest')) as [|w ws]; [by apply Forall_singleton|].
  apply Forall_cons in IH as [[Hw Hchars] Hws].
  constructor; [|done]. split; [done|]. simpl. by rewrite Hc, Hchars.
Qed.

(** A word in front of the end of the text or of a blank is the first
    word of the split. *)
Lemma split_word_then (w rest : string) :
  wordlike w →
  (rest = EmptyString ∨ ∃ d r, rest = String d r ∧ isspace d = true) →
  split (w +:+ rest) = w :: split rest.
Proof.
  intros [Hne Hchars] Hrest. induction w as [|c w IH]; [done|].
  simpl in Hchars. apply andb_true_iff in Hchars as [Hc Hchars].
  apply negb_true_iff in Hc.
  rewrite str_app_cons. destruct w as [|c' w'].
  - rewrite str_app_nil_l. simpl. rewrite Hc.
    destruct Hrest as [->|(d & r & -> & Hd)]; [done|]. by rewrite Hd.
  - specialize (IH ltac:(done) Hchars).
    simpl in Hchars. apply andb_true_iff in Hchars as [Hc' _].
    apply negb_true_iff in Hc'.
    change (split (String c (String c' w' +:+ rest)))
      with (if isspace c then split (String c' w' +:+ rest)
            else match String c' w' +:+ rest with
                 | EmptyString => [String c EmptyString]
                 | String d _ =>
                     if isspace d
                     then String c EmptyString :: split (String c' w' +:+ rest)
                     else match split (String c' w' +:+ rest) with
                          | w :: ws => String c w :: ws
                          | [] => [String c EmptyString]
                          end
                 end).
    rewrite Hc, IH. rewrite str_app_cons. by rewrite Hc'.
Qed.

(** Joining words with blanks and splitting again gives the words back. *)
Lemma split_join (ws : list string) :
  Forall wordlike ws → split (join " " ws) = ws.
Proof.
  induction ws as [|w ws IH]; intros Hws; [done|].
  apply Forall_cons in Hws as [Hw Hws].
  destruct ws as [|w' ws'].
  - simpl. rewrite <- (str_app_nil_r w) at 1.
    rewrite split_word_then; [done|done|by left].
  - change (join " " (w :: w' :: ws'))
      with (w +:+ " " +:+ join " " (w' :: ws')).
    rewrite str_app_cons, str_app_nil_l.
    rewrite split_word_then; [|done|right; by eexists _, _].
    rewrite split_space by done. by rewrite IH.
Qed.

End Words.

(** ** More on the chunker *)

Section ChunkerMore.

(** Below the number of chunks every start index lies inside the text. *)
Lemma ceil_div_tight (a b i : nat) :
  (0 < b)%nat → (i < ceil_div a b)%nat → (i * b < a)%nat.
Proof.
  intros Hb Hi. destruct (decide (i * b < a)%nat) as [|Hge]; [done|].
  pose proof (ceil_div_least a b i Hb ltac:(lia)). lia.
Qed.

Lemma create_chunks_closed (text : string) (S : nat) (O : Z) :
  O < Z.of_nat S →
  let words := split text in
  let step := Z.to_nat (Z.of_nat S - O) in
  DocumentProcessor._create_chunks (DocumentProcessor.mk (Z.of_nat S) O) text
  = Ok ((λ i, join " " (take S (drop (i * step) words)))
          <$> seq 0 (ceil_div (length words) step)).
Proof.
  intros HOS words step.
  assert (0 < step)%nat as Hstep by (unfold step; lia).
  unfold DocumentProcessor._create_chunks, range0. simpl. fold words.
  destruct (Z.eqb_spec (Z.of_nat S - O) 0) as [?|_]; [lia|].
  destruct (Z.ltb_spec (Z.of_nat S - O) 0) as [?|_]; [lia|].
  simpl. f_equal. rewrite range_up_spec by lia.
  assert (Z.to_nat ((Z.of_nat (length words) - 0 + (Z.of_nat S - O) - 1)
                      / (Z.of_nat S - O))
          = ceil_div (length words) step) as ->.
  { unfold ceil_div.
    replace (Z.of_nat (length words) - 0 + (Z.of_nat S - O) - 1)
      with (Z.of_nat (length words + step - 1)) by (unfold step; lia).
    replace (Z.of_nat S - O) with (Z.of_nat step) by (unfold step; lia).
    rewrite <- Nat2Z.inj_div. apply Nat2Z.id. }
  rewrite <- list_fmap_compose.
  apply list_fmap_ext. intros j i Hi. simpl.
  apply lookup_seq in Hi as [Hj Hi]. simpl in Hj. subst i. f_equal.
  replace (0 + Z.of_nat j * (Z.of_nat S - O))
    with (Z.of_nat (j * step)) by (unfold step; nia).
  apply slice_window.
  pose proof (ceil_div_tight _ _ _ Hstep Hi). lia.
Qed.

Lemma chunk_lookup (text : string) (S : nat) (O : Z) (chunks : list string)
    (i : nat) (chunk : string) :
  O < Z.of_nat S →
  let words := split text in
  let step := Z.to_nat (Z.of_nat S - O) in
  DocumentProcessor._create_chunks (DocumentProcessor.mk (Z.of_nat S) O) text
    = Ok chunks →
  chunks !! i = Some chunk →
  (i * step < length words)%nat
  ∧ chunk = join " " (take S (drop (i * step) words)).
Proof.
  intros HOS words step Hrun Hi.
  rewrite create_chunks_closed in Hrun by done. simplify_eq.
  rewrite list_lookup_fmap in Hi.
  destruct (seq 0 _ !! i) as [k|] eqn:Hk; [|done].
  apply lookup_seq in Hk as [Hk0 Hk]. simpl in Hk0. subst k.
  simpl in Hi. simplify_eq.
  split; [|done]. apply ceil_div_tight; [|done]. lia.
Qed.

(** The words of a chunk are the words of its window. *)
Lemma chunk_words (text : string) (S : nat) (O : Z)
    (chunks : list string) (i : nat) (chunk : string) :
  O < Z.of_nat S →
  DocumentProcessor._create_chunks (DocumentProcessor.mk (Z.of_nat S) O) text
    = Ok chunks →
  chunks !! i = Some chunk →
  let words := split text in
  let step := Z.to_nat (Z.of_nat S - O) in
  split chunk = take S (drop (i * step) words)
  ∧ (i * step < length words)%nat.
Proof.
  intros HOS Hrun Hi words step.
  destruct (chunk_lookup text S O chunks i chunk HOS Hrun Hi) as [Hlt ->].
  split; [|done].
  apply split_join, Forall_take, Forall_drop, split_wordlike.
Qed.

End ChunkerMore.



(** X2. With an overlap between 0 and the chunk size no word is lost:
    the word at index [j] of the text is the word at offset
    [j mod (S - O)] of chunk [j / (S - O)]. *)
Theorem X2_every_word_is_in_a_chunk (text : string) (S : nat) (O : Z)
    (chunks : list string) (j : nat) (word : string) :
  0 ≤ O → O < Z.of_nat S →
  DocumentProcessor._create_chunks (DocumentProcessor.mk (Z.of_nat S) O) text
    = Ok chunks →
  split text !! j = Some word →
  let step := Z.to_nat (Z.of_nat S - O) in
  ∃ chunk, chunks !! (j / step)%nat = Some chunk
           ∧ split chunk !! (j mod step)%nat = Some word.
Proof.
  intros HO HOS Hrun Hj step.
  assert (0 < step)%nat as Hstep by (unfold step; lia).
  pose proof (lookup_lt_Some _ _ _ Hj) as Hlt.
  pose proof (Nat.div_mod j step ltac:(lia)) as Hdm.
  pose proof (Nat.mod_upper_bound j step ltac:(lia)) as Hmod.
  assert (j / step < ceil_div (length (split text)) step)%nat as Hi.
  { destruct (decide (j / step < ceil_div (length (split text)) step)%nat)
      as [|Hge]; [done|].
    pose proof (ceil_div_covers (length (split text)) step Hstep). nia. }
  rewrite create_chunks_closed in Hrun by done. fold step in Hrun.
  simplify_eq.
  eexists. split.
  - rewrite list_lookup_fmap, lookup_seq_lt by done. reflexivity.
  - simpl. rewrite split_join
      by apply Forall_take, Forall_drop, split_wordlike.
    rewrite lookup_take_lt by (unfold step in *; lia).
    rewrite lookup_drop. rewrite <- Hj. f_equal. lia.
Qed.

Lemma X2_witness :
  ∃ chunk, ["a b c"; "c d e"; "e f g"; "g"] !! (5 / 2)%nat = Some chunk
           ∧ split chunk !! (5 mod 2)%nat = Some "f".
Proof.
  exact (X2_every_word_is_in_a_chunk "a b c d e f g" 3 1
           ["a b c"; "c d e"; "e f g"; "g"] 5%nat "f"
           ltac:(lia) ltac:(lia) eq_refl eq_refl).
Defined.

(** X3. Consecutive chunks overlap by exactly [O] words: when chunk [i]
    is full and chunk [i + 1] exists, the last [O] words of chunk [i]
    are the first [O] words of chunk [i + 1]. *)
Theorem X3_consecutive_chunks_overlap (text : string) (S : nat) (O : Z)
    (chunks : list string) (i : nat) (chunk next : string) :
  0 ≤ O → O < Z.of_nat S →
  DocumentProcessor._create_chunks (DocumentProcessor.mk (Z.of_nat S) O) text
    = Ok chunks →
  chunks !! i = Some chunk →
  chunks !! (i + 1)%nat = Some next →
  length (split chunk) = S →
  let step := Z.to_nat (Z.of_nat S - O) in
  drop step (split chunk) = take (Z.to_nat O) (split next)
  ∧ length (drop step (split chunk)) = Z.to_nat O.
Proof.
  intros HO HOS Hrun Hi Hnext Hfull step.
  destruct (chunk_words text S O chunks i chunk HOS Hrun Hi) as [Hc _].
  destruct (chunk_words text S O chunks (i + 1) next HOS Hrun Hnext) as [Hn _].
  fold step in Hc, Hn.
  assert (S + i * step ≤ length (split text))%nat as Hroom.
  { rewrite Hc, length_take, length_drop in Hfull. lia. }
  assert (step + Z.to_nat O = S)%nat as HS by (unfold step; lia).
  rewrite Hc, Hn. split.
  - rewrite take_take.
    replace (Z.to_nat O `min` S)%nat with (Z.to_nat O) by lia.
    replace S with (step + Z.to_nat O)%nat at 1 by done.
    rewrite <- take_drop_commute, drop_drop. do 2 f_equal. lia.
  - rewrite length_drop, length_take, length_drop. lia.
Qed.

Lemma X3_witness :
  drop 2 (split "a b c") = take 1 (split "c d e")
  ∧ length (drop 2 (split "a b c")) = 1%nat.
Proof.
  exact (X3_consecutive_chunks_overlap "a b c d e f g" 3 1
           ["a b c"; "c d e"; "e f g"; "g"] 0%nat "a b c" "c d e"
           ltac:(lia) ltac:(lia) eq_refl eq_refl eq_refl eq_refl).
Defined.

(** X4. A configuration without forward progress is not rejected the
    same way twice: an overlap equal to the chunk size raises the
    [ValueError] of [range] for every text, the empty one included,
    while an overlap above the chunk size returns no chunk at all,
    whatever the text holds. *)
Theorem X4_chunking_without_progress (size overlap : Z) (text : string) :
  (overlap = size →
   DocumentProcessor._create_chunks (DocumentProcessor.mk size overlap) text
     = Raise ValueError)
  ∧ (size < overlap →
     DocumentProcessor._create_chunks (DocumentProcessor.mk size overlap) text
       = Ok []).
Proof.
  unfold DocumentProcessor._create_chunks, range0. simpl. split.
  - intros ->. by rewrite Z.sub_diag.
  - intros Hlt.
    destruct (Z.eqb_spec (size - overlap) 0) as [?|_]; [lia|].
    destruct (Z.ltb_spec (size - overlap) 0) as [_|?]; [done|lia].
Qed.

Lemma X4_witness :
  DocumentProcessor._create_chunks (DocumentProcessor.mk 200 200) "" = Raise ValueError
  ∧ DocumentProcessor._create_chunks (DocumentProcessor.mk 200 1000) "a b c" = Ok [].
Proof.
  split.
  - exact (proj1 (X4_chunking_without_progress 200 200 "") eq_refl).
  - apply (X4_chunking_without_progress 200 1000 "a b c"). lia.
Defined.

(** ** Processing a document *)

(** X5. A path whose suffix is not pdf, docx or txt in some letter case
    makes [process_document] raise [ValueError], whatever the
    configuration and whatever the file holds. *)
Theorem X5_unsupported_file_type {files : DocumentProcessor.Files}
    (self : DocumentProcessor.t) (file_path : string) :
  lower (DocumentProcessor.path_suffix file_path) ∉ [".pdf"; ".docx"; ".txt"] →
  DocumentProcessor.process_document self file_path = Raise ValueError.
Proof.
  intros Hext. unfold DocumentProcessor.process_document.
  destruct (String.eqb_spec (lower (DocumentProcessor.path_suffix file_path)) ".pdf")
    as [Heq|_]; [rewrite Heq in Hext; set_solver|].
  destruct (String.eqb_spec (lower (DocumentProcessor.path_suffix file_path)) ".docx")
    as [Heq|_]; [rewrite Heq in Hext; set_solver|].
  destruct (String.eqb_spec (lower (DocumentProcessor.path_suffix file_path)) ".txt")
    as [Heq|_]; [rewrite Heq in Hext; set_solver|].
  reflexivity.
Qed.

Lemma X5_witness :
  DocumentProcessor.process_document (files := Examples.memory_files)
    DocumentProcessor.init "notes/week1.md" = Raise ValueError.
Proof.
  apply (X5_unsupported_file_type (files := Examples.memory_files)).
  vm_compute. intros Hin.
  repeat (apply elem_of_cons in Hin as [Hin|Hin]; [discriminate|]).
  by apply elem_of_nil in Hin.
Defined.

(** X6. For a processed document the stored counts agree with the
    chunker: with chunk size [S] and overlap [O < S] the chunk count is
    [ceil(word_count / (S - O))], and the application builds one
    metadata record per chunk, in order, carrying the file name, the
    lower-cased suffix, the chunk's position and its number of words,
    [min(S, word_count - position * (S - O))]. *)
Theorem X6_document_counts_and_chunk_metadata {files : DocumentProcessor.Files}
    (S : nat) (O : Z) (file_path : string) (doc : DocumentProcessor.document) :
  O < Z.of_nat S →
  DocumentProcessor.process_document (DocumentProcessor.mk (Z.of_nat S) O) file_path
    = Ok doc →
  let step := Z.to_nat (Z.of_nat S - O) in
  let words := DocumentProcessor.word_count (DocumentProcessor.metadata doc) in
  words = length (split (DocumentProcessor.content doc))
  ∧ DocumentProcessor.chunk_count (DocumentProcessor.metadata doc)
    = ceil_div words step
  ∧ length (App.chunk_metadatas doc)
    = DocumentProcessor.chunk_count (DocumentProcessor.metadata doc)
  ∧ ∀ j m, App.chunk_metadatas doc !! j = Some m →
      VectorStore.file_name m = DocumentProcessor.path_name file_path
      ∧ VectorStore.file_type m = lower (DocumentProcessor.path_suffix file_path)
      ∧ VectorStore.chunk_index m = j
      ∧ VectorStore.word_count m = (S `min` (words - j * step))%nat.
Proof.
  intros HOS Hrun step words.
  unfold DocumentProcessor.process_document in Hrun.
  destruct (if String.eqb _ ".pdf" then _ else _) as [content|e]; [|done].
  simpl in Hrun.
  destruct (DocumentProcessor._create_chunks _ (DocumentProcessor._clean_text content))
    as [chunks|e] eqn:Hchunks; [|done].
  simpl in Hrun. simplify_eq. unfold words. simpl.
  split; [done|].
  pose proof Hchunks as Hclosed.
  rewrite create_chunks_closed in Hclosed by done. simplify_eq.
  split; [by rewrite length_fmap, length_seq|].
  unfold App.chunk_metadatas. simpl.
  split; [by rewrite length_imap|].
  intros j m Hm. rewrite list_lookup_imap in Hm.
  destruct (_ !! j) as [chunk|] eqn:Hj; [|done].
  simpl in Hm. simplify_eq. simpl.
  do 3 (split; [done|]).
  destruct (chunk_words _ S O _ j chunk HOS Hchunks Hj) as [-> _].
  by rewrite length_take, length_drop.
Qed.

Lemma X6_witness :
  let doc :=
    {| DocumentProcessor.file_path := "notes/cells.TXT";
       DocumentProcessor.file_name := "notes/cells.TXT";
       DocumentProcessor.content := "Cells divide; organs grow.";
       DocumentProcessor.chunks := ["Cells divide; organs"; "organs grow."];
       DocumentProcessor.metadata :=
         {| DocumentProcessor.file_type := ".txt";
            DocumentProcessor.chunk_count := 2;
            DocumentProcessor.word_count := 4 |} |} in
  DocumentProcessor.process_document (files := Examples.memory_files)
    (DocumentProcessor.mk 3 1) "notes/cells.TXT" = Ok doc
  ∧ length (App.chunk_metadatas doc) = 2%nat
  ∧ ∀ j m, App.chunk_metadatas doc !! j = Some m →
      VectorStore.word_count m = (3 `min` (4 - j * 2))%nat.
Proof.
  intros doc.
  assert (DocumentProcessor.process_document (files := Examples.memory_files)
            (DocumentProcessor.mk (Z.of_nat 3) 1) "notes/cells.TXT" = Ok doc) as Hrun
    by (vm_compute; reflexivity).
  split; [exact Hrun|].
  destruct (X6_document_counts_and_chunk_metadata (files := Examples.memory_files)
              3 1 "notes/cells.TXT" doc ltac:(lia) Hrun)
    as (_ & _ & Hlen & Hmeta).
  split; [exact Hlen|].
  intros j m Hm. exact (proj2 (proj2 (proj2 (Hmeta j m Hm)))).
Defined.

(** ** More on the difficulty score *)

Section DifficultyMore.

Lemma len_map_chars (f : ascii → ascii) (s : string) : len (map_chars f s) = len s.
Proof.
  unfold len. induction s as [|c s IH]; [done|].
  change (S (String.length (map_chars f s)) = S (String.length s)).
  by rewrite IH.
Qed.

Lemma vowel_groups_le (w : string) (prev : bool) (n : Z) :
  DifficultyAssessor.vowel_groups w prev n ≤ n + Z.of_nat (len w).
Proof.
  unfold len. revert prev n.
  induction w as [|c w IH]; intros prev n; [simpl; lia|].
  change (String.length (String c w)) with (S (String.length w)).
  cbn [DifficultyAssessor.vowel_groups].
  destruct (DifficultyAssessor.is_vowel c).
  - destruct prev.
    + pose proof (IH true n). lia.
    + pose proof (IH true (n + 1)). lia.
  - pose proof (IH false n). lia.
Qed.

(** The score of every text: it is computed, and lies in [0, 1]. *)
Lemma assess_text_difficulty_range {punkt : DifficultyAssessor.Punkt}
    (self : DifficultyAssessor.t) (text : string) :
  ∃ score,
    DifficultyAssessor.assess_text_difficulty self text = Ok score
    ∧ (0 <= score)%Q ∧ (score <= 1)%Q.
Proof.
  unfold DifficultyAssessor.assess_text_difficulty,
    DifficultyAssessor._calculate_metrics.
  set (words := findall_words (lower text)).
  set (nwords := Z.of_nat (length words)).
  destruct (guarded_ratio_nonneg (DifficultyAssessor.sent_tokenize text) nwords
              ltac:(lia)) as (avg & -> & Havg).
  destruct (guarded_ratio_nonneg words
              (Z.of_nat (length (filter
                 (λ word, 3 ≤ DifficultyAssessor._count_syllables word) words)))
              ltac:(lia)) as (cx & Hcx & Hcx0).
  destruct (guarded_ratio_nonneg words
              (DifficultyAssessor.sum_Z (DifficultyAssessor._count_syllables <$> words))
              (sum_syllables_nonneg words)) as (sy & Hsy & Hsy0).
  destruct (guarded_ratio_nonneg words
              (Z.of_nat (length (filter
                 (λ word, word ∈ DifficultyAssessor.complex_words self) words)))
              ltac:(lia)) as (te & Hte & Hte0).
  fold nwords in Hcx, Hsy, Hte.
  cbn [mbind PyResult_bind Py.bind].
  rewrite Hcx. cbn [mbind PyResult_bind Py.bind].
  rewrite Hsy. cbn [mbind PyResult_bind Py.bind].
  rewrite Hte. cbn [mbind PyResult_bind Py.bind mret PyResult_ret].
  assert (0 <= 100)%Q as H100 by (unfold Qle; simpl; lia).
  cbn [DifficultyAssessor.avg_sentence_length DifficultyAssessor.complex_word_ratio
       DifficultyAssessor.syllable_density DifficultyAssessor.technical_term_ratio].
  set (weighted := (avg * (2 # 10) + cx * 100 * (3 # 10) + sy * (3 # 10)
                    + te * 100 * (2 # 10))%Q).
  assert (0 <= weighted)%Q as Hweighted.
  { unfold weighted.
    repeat (apply Qplus_nonneg || apply Qmult_le_0_compat);
      (done || (unfold Qle; simpl; lia)). }
  assert (0 <= weighted / 100)%Q as Hnorm.
  { apply Qmult_le_0_compat; [done|]. apply Qinv_le_0_compat.
    unfold Qle. simpl. lia. }
  eexists. split; [reflexivity|]. by apply min_float_range.
Qed.

End DifficultyMore.

(** X7. [_count_syllables] never returns less than 1 and never more
    than the word has characters (1 for the empty word). *)
Theorem X7_syllable_count_bounds (word : string) :
  1 ≤ DifficultyAssessor._count_syllables word
  ∧ DifficultyAssessor._count_syllables word ≤ Z.max 1 (Z.of_nat (len word)).
Proof.
  split; [apply count_syllables_pos|].
  unfold DifficultyAssessor._count_syllables.
  pose proof (vowel_groups_le (lower word) false 0) as Hle.
  unfold lower in Hle. rewrite len_map_chars in Hle. fold (lower word) in Hle.
  destruct (endswith_char "e" word).
  - destruct (Z.eqb_spec (DifficultyAssessor.vowel_groups (lower word) false 0 - 1) 0);
      lia.
  - destruct (Z.eqb_spec (DifficultyAssessor.vowel_groups (lower word) false 0) 0);
      lia.
Qed.

(** X8. A text without a word character scores 0 and is categorized
    "beginner", whatever the sentence tokenizer makes of it. *)
Theorem X8_wordless_text_scores_zero {punkt : DifficultyAssessor.Punkt}
    (self : DifficultyAssessor.t) (text : string) :
  findall_words (lower text) = [] →
  ∃ score,
    DifficultyAssessor.assess_text_difficulty self text = Ok score
    ∧ (score == 0)%Q
    ∧ DifficultyAssessor.categorize_difficulty score = "beginner".
Proof.
  intros Hwords.
  unfold DifficultyAssessor.assess_text_difficulty,
    DifficultyAssessor._calculate_metrics.
  rewrite Hwords. simpl length.
  destruct (DifficultyAssessor.sent_tokenize text) as [|s ss].
  - eexists. split; [reflexivity|]. split; reflexivity.
  - rewrite truediv_nonzero by (simpl; lia).
    eexists. split; [reflexivity|]. split; reflexivity.
Qed.

Lemma X8_witness :
  ∃ score,
    DifficultyAssessor.assess_text_difficulty (punkt := Examples.dot_punkt)
      DifficultyAssessor.init "... ?! ..." = Ok score
    ∧ (score == 0)%Q
    ∧ DifficultyAssessor.categorize_difficulty score = "beginner".
Proof.
  apply (X8_wordless_text_scores_zero (punkt := Examples.dot_punkt)).
  reflexivity.
Defined.

(** ** Difficulty bands *)

Section Bands.
Context {Collection : Type}.

(** [_matches_difficulty_level] as the two comparisons it makes. *)
Lemma matches_band (self : RAGEngine.t Collection) (score lo hi : Q)
    (level : string) :
  Config.DIFFICULTY_LEVELS_get level
    {| Config.min_score := 0; Config.max_score := 1 |}
  = {| Config.min_score := lo; Config.max_score := hi |} →
  RAGEngine._matches_difficulty_level self score level = true
  ↔ (lo <= score)%Q ∧ (score <= hi)%Q.
Proof.
  intros Hband. unfold RAGEngine._matches_difficulty_level.
  rewrite Hband. simpl. by rewrite andb_true_iff, !Qle_bool_iff.
Qed.

End Bands.

(** X9. The category of a score and the band of that category agree: a
    document whose score lies in [0, 1] always passes the difficulty
    filter of its own category. *)
Theorem X9_category_band_contains_score {Collection : Type}
    (self : RAGEngine.t Collection) (score : Q) :
  (0 <= score)%Q → (score <= 1)%Q →
  RAGEngine._matches_difficulty_level self score
    (DifficultyAssessor.categorize_difficulty score) = true.
Proof.
  intros H0 H1. unfold DifficultyAssessor.categorize_difficulty.
  destruct (Qle_bool (3 # 10) score) eqn:H3; simpl.
  - apply Qle_bool_iff in H3.
    destruct (Qle_bool (7 # 10) score) eqn:H7; simpl.
    + apply Qle_bool_iff in H7.
      apply (matches_band self score (7 # 10) 1 "advanced" eq_refl). by split.
    + assert (¬ (7 # 10 <= score)%Q) as Hn by (rewrite <- Qle_bool_iff; congruence).
      apply (matches_band self score (3 # 10) (7 # 10) "intermediate" eq_refl).
      split; [done|]. lra.
  - assert (¬ (3 # 10 <= score)%Q) as Hn by (rewrite <- Qle_bool_iff; congruence).
    apply (matches_band self score 0 (3 # 10) "beginner" eq_refl).
    split; [done|]. lra.
Qed.

Lemma X9_witness :
  RAGEngine._matches_difficulty_level (Examples.engine [] []) (1 # 2)
    (DifficultyAssessor.categorize_difficulty (1 # 2)) = true.
Proof.
  apply X9_category_band_contains_score; unfold Qle; simpl; lia.
Defined.

(** X10. The bands are closed intervals, so neighbours share their edge:
    a score passes both the beginner and the intermediate filter exactly
    when it is 0.3, both the intermediate and the advanced filter
    exactly when it is 0.7, and never both the beginner and the advanced
    one. *)
Theorem X10_bands_overlap_at_their_edges {Collection : Type}
    (self : RAGEngine.t Collection) (score : Q) :
  let passes := RAGEngine._matches_difficulty_level self score in
  (passes "beginner" = true ∧ passes "intermediate" = true ↔ (score == 3 # 10)%Q)
  ∧ (passes "intermediate" = true ∧ passes "advanced" = true ↔ (score == 7 # 10)%Q)
  ∧ ¬ (passes "beginner" = true ∧ passes "advanced" = true).
Proof.
  intros passes. unfold passes.
  rewrite (matches_band self score 0 (3 # 10) "beginner" eq_refl).
  rewrite (matches_band self score (3 # 10) (7 # 10) "intermediate" eq_refl).
  rewrite (matches_band self score (7 # 10) 1 "advanced" eq_refl).
  split; [|split]; [split; [intros [[_ Hb] [Hi _]]|intros Heq]
                   |split; [intros [[_ Hi] [Ha _]]|intros Heq]
                   |intros [[_ Hb] [Ha _]]]; lra.
Qed.

(** ** Filtering by difficulty *)

Section Filter.
Context {Collection : Type} {punkt : DifficultyAssessor.Punkt}.

Lemma filter_loop_closed (self : RAGEngine.t Collection)
    (search_results : VectorStore.results) (level : string)
    (metas : list VectorStore.metadata) (docs : list string) (i : nat)
    (filtered_docs : list string) (filtered_metas : list VectorStore.metadata) :
  first (VectorStore.metadatas search_results) = Ok metas →
  (i + length docs ≤ length metas)%nat →
  let kept :=
    filter (λ p, RAGEngine._matches_difficulty_level self
                   (difficulty_of (RAGEngine.difficulty_assessor self) p.1) level
                 = true)
           (zip docs (drop i metas)) in
  RAGEngine.filter_loop self search_results level i docs
    filtered_docs filtered_metas
  = Ok (filtered_docs ++ kept.*1, filtered_metas ++ kept.*2).
Proof.
  intros Hmetas. revert i filtered_docs filtered_metas.
  induction docs as [|doc docs IH]; intros i fd fm Hlen kept.
  - unfold kept. simpl. by rewrite !app_nil_r.
  - simpl in Hlen.
    destruct (lookup_lt_is_Some_2 metas i ltac:(lia)) as [meta Hmeta].
    unfold kept. rewrite (drop_S _ _ _ Hmeta). simpl zip.
    rewrite filter_cons. simpl fst.
    destruct (assess_text_difficulty_range (RAGEngine.difficulty_assessor self) doc)
      as (score & Hscore & _).
    assert (difficulty_of (RAGEngine.difficulty_assessor self) doc = score) as ->
      by (unfold difficulty_of; by rewrite Hscore).
    cbn [RAGEngine.filter_loop]. rewrite Hscore.
    cbn [mbind PyResult_bind Py.bind].
    destruct (RAGEngine._matches_difficulty_level self score level) eqn:Hmatch.
    + rewrite decide_True by done.
      rewrite Hmetas. cbn [mbind PyResult_bind Py.bind].
      unfold item. rewrite Hmeta. cbn [mbind PyResult_bind Py.bind].
      rewrite IH by lia. rewrite !fmap_cons, <- !app_assoc. reflexivity.
    + rewrite decide_False by congruence.
      by rewrite IH by lia.
Qed.

Lemma filter_by_difficulty_closed (self : RAGEngine.t Collection)
    (search_results : VectorStore.results) (level : string)
    (docs : list string) (metas : list VectorStore.metadata) :
  first (VectorStore.documents search_results) = Ok docs →
  first (VectorStore.metadatas search_results) = Ok metas →
  (length docs ≤ length metas)%nat →
  let kept :=
    filter (λ p, RAGEngine._matches_difficulty_level self
                   (difficulty_of (RAGEngine.difficulty_assessor self) p.1) level
                 = true)
           (zip docs metas) in
  RAGEngine._filter_by_difficulty self search_results level
  = Ok {| VectorStore.documents := [kept.*1];
          VectorStore.metadatas := [kept.*2] |}.
Proof.
  intros Hdocs Hmetas Hlen kept. unfold RAGEngine._filter_by_difficulty.
  rewrite Hdocs. cbn [mbind PyResult_bind Py.bind].
  rewrite (filter_loop_closed self search_results level metas docs 0 [] [] Hmetas)
    by (simpl; lia).
  rewrite drop_0. reflexivity.
Qed.

End Filter.

(** X11. On search results that carry a metadata record for every
    document, [_filter_by_difficulty] keeps exactly the documents whose
    score lies in the band of the level, in their order, each with the
    metadata record of its own position. *)
Theorem X11_filter_keeps_documents_with_their_metadata {Collection : Type}
    {punkt : DifficultyAssessor.Punkt}
    (self : RAGEngine.t Collection) (search_results : VectorStore.results)
    (level : string) (docs : list string) (metas : list VectorStore.metadata) :
  first (VectorStore.documents search_results) = Ok docs →
  first (VectorStore.metadatas search_results) = Ok metas →
  (length docs ≤ length metas)%nat →
  let kept :=
    filter (λ p, RAGEngine._matches_difficulty_level self
                   (difficulty_of (RAGEngine.difficulty_assessor self) p.1) level
                 = true)
           (zip docs metas) in
  RAGEngine._filter_by_difficulty self search_results level
  = Ok {| VectorStore.documents := [kept.*1];
          VectorStore.metadatas := [kept.*2] |}.
Proof. apply filter_by_difficulty_closed. Qed.

Lemma X11_witness :
  RAGEngine._filter_by_difficulty (punkt := Examples.dot_punkt)
    (Examples.engine [] [])
    (VectorStore.mk_results
       [["Cats purr."; "Empirical methodology evaluates theoretical hypothesis."]]
       [[Examples.meta "pets.txt" 0 2; Examples.meta "method.txt" 0 5]])
    "beginner"
  = Ok (VectorStore.mk_results [["Cats purr."]] [[Examples.meta "pets.txt" 0 2]]).
Proof.
  rewrite (X11_filter_keeps_documents_with_their_metadata
             (punkt := Examples.dot_punkt) (Examples.engine [] [])
             (VectorStore.mk_results
                [["Cats purr.";
                  "Empirical methodology evaluates theoretical hypothesis."]]
                [[Examples.meta "pets.txt" 0 2; Examples.meta "method.txt" 0 5]])
             "beginner"
             ["Cats purr."; "Empirical methodology evaluates theoretical hypothesis."]
             [Examples.meta "pets.txt" 0 2; Examples.meta "method.txt" 0 5]
             eq_refl eq_refl ltac:(simpl; lia)).
  vm_compute. reflexivity.
Defined.

(** X12. A level that names no band switches the filter off: with a
    level other than "beginner", "intermediate" and "advanced" every
    document is kept, because every score lies in the default band
    [0, 1]. *)
Theorem X12_unknown_level_keeps_every_document {Collection : Type}
    {punkt : DifficultyAssessor.Punkt}
    (self : RAGEngine.t Collection) (search_results : VectorStore.results)
    (level : string) (docs : list string) (metas : list VectorStore.metadata) :
  level ∉ ["beginner"; "intermediate"; "advanced"] →
  first (VectorStore.documents search_results) = Ok docs →
  first (VectorStore.metadatas search_results) = Ok metas →
  (length docs ≤ length metas)%nat →
  RAGEngine._filter_by_difficulty self search_results level
  = Ok {| VectorStore.documents := [docs];
          VectorStore.metadatas := [take (length docs) metas] |}.
Proof.
  intros Hlevel Hdocs Hmetas Hlen.
  rewrite (filter_by_difficulty_closed self search_results level docs metas)
    by done.
  assert (Config.DIFFICULTY_LEVELS_get level
            {| Config.min_score := 0; Config.max_score := 1 |}
          = {| Config.min_score := 0; Config.max_score := 1 |}) as Hband.
  { unfold Config.DIFFICULTY_LEVELS_get.
    destruct (String.eqb_spec level "beginner") as [->|_]; [set_solver|].
    destruct (String.eqb_spec level "intermediate") as [->|_]; [set_solver|].
    destruct (String.eqb_spec level "advanced") as [->|_]; [set_solver|].
    done. }
  assert (filter (λ p, RAGEngine._matches_difficulty_level self
                         (difficulty_of (RAGEngine.difficulty_assessor self) p.1)
                         level = true)
                 (zip docs metas) = zip docs metas) as ->.
  { induction (zip docs metas) as [|[doc meta] pairs IH]; [done|].
    rewrite filter_cons, IH. simpl fst.
    rewrite decide_True; [done|].
    apply (matches_band self _ 0 1 level Hband).
    unfold difficulty_of.
    destruct (assess_text_difficulty_range (RAGEngine.difficulty_assessor self) doc)
      as (score & -> & Hrange).
    exact Hrange. }
  rewrite fst_zip by done.
  do 3 f_equal.
  rewrite <- (zip_with_take_r pair docs metas).
  apply snd_zip. rewrite length_take. lia.
Qed.

Lemma X12_witness :
  RAGEngine._filter_by_difficulty (punkt := Examples.dot_punkt)
    (Examples.engine [] [])
    (VectorStore.mk_results [["Cats purr."; "Dogs bark."]]
       [[Examples.meta "pets.txt" 0 2; Examples.meta "pets.txt" 1 2]])
    "expert"
  = Ok (VectorStore.mk_results [["Cats purr."; "Dogs bark."]]
          [[Examples.meta "pets.txt" 0 2; Examples.meta "pets.txt" 1 2]]).
Proof.
  refine (X12_unknown_level_keeps_every_document (punkt := Examples.dot_punkt)
            (Examples.engine [] [])
            (VectorStore.mk_results [["Cats purr."; "Dogs bark."]]
               [[Examples.meta "pets.txt" 0 2; Examples.meta "pets.txt" 1 2]])
            "expert" ["Cats purr."; "Dogs bark."]
            [Examples.meta "pets.txt" 0 2; Examples.meta "pets.txt" 1 2]
            _ eq_refl eq_refl _).
  - intros Hin.
    repeat (apply elem_of_cons in Hin as [Hin|Hin]; [discriminate|]).
    by apply elem_of_nil in Hin.
  - simpl. lia.
Defined.

(** ** Responses and understanding levels *)

Section Responses.

Lemma len_app (a b : string) : len (a +:+ b) = (len a + len b)%nat.
Proof.
  unfold len. induction a as [|c a IH]; [done|].
  rewrite str_app_cons. simpl. by rewrite IH.
Qed.

Lemma len_prefix_of (n : nat) (s : string) : (len (prefix_of n s) ≤ n)%nat.
Proof.
  unfold len. revert s. induction n as [|n IH]; intros [|c s]; simpl; try lia.
  specialize (IH s). lia.
Qed.





End Responses.

(** X13. The response of [_generate_response] is made from at most the
    first three documents and the first 500 characters of their text:
    it is never longer than 535 characters, and documents after the
    third do not change it. *)
Theorem X13_response_is_bounded {Collection : Type}
    (self : RAGEngine.t Collection) (question : string)
    (search_results : VectorStore.results) (docs : list string) :
  first (VectorStore.documents search_results) = Ok docs →
  ∃ response,
    RAGEngine._generate_response self question search_results = Ok response
    ∧ (len response ≤ 535)%nat
    ∧ RAGEngine._generate_response self question
        {| VectorStore.documents := [take 3 docs];
           VectorStore.metadatas := VectorStore.metadatas search_results |}
      = Ok response.
Proof.
  intros Hdocs. unfold RAGEngine._generate_response.
  rewrite Hdocs. cbn [mbind PyResult_bind Py.bind VectorStore.documents first].
  destruct docs as [|d docs].
  - eexists. split; [reflexivity|]. split; [vm_compute; lia|reflexivity].
  - rewrite take_take. change (3 `min` 3)%nat with 3%nat.
    change (match take 3 (d :: docs) with
            | [] => ?a
            | _ :: _ => ?b
            end) with b.
    eexists. split; [reflexivity|]. split; [|reflexivity].
    rewrite !len_app.
    pose proof (len_prefix_of 500 (join " " (take 3 (d :: docs)))).
    change (len "Based on your study materials:") with 30%nat.
    change (len nl) with 1%nat. change (len "...") with 3%nat. lia.
Qed.

Lemma X13_witness :
  ∃ response,
    RAGEngine._generate_response (Examples.engine [] []) "what is a cell"
      (VectorStore.mk_results [["one"; "two"; "three"; "four"]] [[]])
    = Ok response
    ∧ (len response ≤ 535)%nat
    ∧ RAGEngine._generate_response (Examples.engine [] []) "what is a cell"
        (VectorStore.mk_results [["one"; "two"; "three"]] [[]])
      = Ok response.
Proof.
  exact (X13_response_is_bounded (Examples.engine [] []) "what is a cell"
           (VectorStore.mk_results [["one"; "two"; "three"; "four"]] [[]])
           ["one"; "two"; "three"; "four"] eq_refl).
Defined.


(** ** Runs of queries and the knowledge gaps *)

Section Runs.
Context {Collection : Type} {chroma : VectorStore.Chroma Collection}.
Context {punkt : DifficultyAssessor.Punkt}.

Lemma query_state (self : RAGEngine.t Collection) (question : string)
    (n_results : Z) (difficulty_level : option string) :
  fst (RAGEngine.query question n_results difficulty_level self)
  = fst (RAGEngine.history_append question self).
Proof.
  unfold RAGEngine.query. apply and_then_append. intros _.
  repeat (apply read_only_and_then; [|intros ?]); try apply read_only_reads.
  destruct (RAGEngine.truthy difficulty_level); apply read_only_reads.
Qed.

Lemma ask_all_state (asks : list (string * Z * option string))
    (self : RAGEngine.t Collection) :
  ask_all asks self
  = {| RAGEngine.vector_store := RAGEngine.vector_store self;
       RAGEngine.embedding_manager := RAGEngine.embedding_manager self;
       RAGEngine.difficulty_assessor := RAGEngine.difficulty_assessor self;
       RAGEngine.query_history := RAGEngine.query_history self ++ asks.*1.*1 |}.
Proof.
  revert self. induction asks as [|[[q n] dl] asks IH]; intros self.
  - simpl. rewrite app_nil_r. by destruct self.
  - unfold ask_all in *. simpl. rewrite query_state, IH. simpl.
    by rewrite <- app_assoc.
Qed.

(** A gap message is neither of the two fixed messages. *)
Lemma weak_area_message_distinct (topic : string) (count : nat) :
  RAGEngine.weak_area_message topic count
    ≠ "Upload more documents and ask more questions to identify knowledge gaps!"
  ∧ RAGEngine.weak_area_message topic count
    ≠ "No specific weak areas identified yet".
Proof.
  unfold RAGEngine.weak_area_message. rewrite str_app_cons. split; discriminate.
Qed.

(** The first entry of a descending list is the largest. *)
Lemma head_of_sorted (ranked : list (string * nat)) (w : string) (c : nat) :
  StronglySorted (λ a b, (b.2 ≤ a.2)%nat) ranked →
  (w, c) ∈ ranked →
  ∃ top rest, ranked = top :: rest ∧ (c ≤ top.2)%nat.
Proof.
  intros Hsorted Hin. destruct ranked as [|top rest]; [by apply elem_of_nil in Hin|].
  exists top, rest. split; [done|].
  apply StronglySorted_inv in Hsorted as [_ Htop].
  apply elem_of_cons in Hin as [<-|Hin]; [done|].
  rewrite Forall_forall in Htop. by apply (Htop (w, c)).
Qed.

End Runs.

(** X15. A run of [query] calls leaves the engine with the questions
    appended to the history in the order of the calls, whatever each
    call returned or raised, and with the store, the embedding manager
    and the assessor it had. *)
Theorem X15_history_after_a_run_of_queries {Collection : Type}
    {chroma : VectorStore.Chroma Collection} {punkt : DifficultyAssessor.Punkt}
    (asks : list (string * Z * option string)) (self : RAGEngine.t Collection) :
  let after := ask_all asks self in
  RAGEngine.query_history after = RAGEngine.query_history self ++ asks.*1.*1
  ∧ RAGEngine.vector_store after = RAGEngine.vector_store self
  ∧ RAGEngine.embedding_manager after = RAGEngine.embedding_manager self
  ∧ RAGEngine.difficulty_assessor after = RAGEngine.difficulty_assessor self.
Proof. intros after. unfold after. by rewrite ask_all_state. Qed.

(** X16. On a new engine [find_knowledge_gaps] returns the prompting
    message exactly as long as fewer than five [query] calls were made:
    failed calls count, and from the fifth call on the answer is a list
    of gap messages or the no-weak-areas message. *)
Theorem X16_new_engine_prompts_until_five_queries {Collection : Type}
    {chroma : VectorStore.Chroma Collection} {punkt : DifficultyAssessor.Punkt}
    (vector_store : VectorStore.t Collection)
    (embedding_manager : EmbeddingManager.t)
    (asks : list (string * Z * option string)) :
  RAGEngine.find_knowledge_gaps
    (ask_all asks (RAGEngine.__init__ vector_store embedding_manager))
  = ["Upload more documents and ask more questions to identify knowledge gaps!"]
  ↔ (length asks < 5)%nat.
Proof.
  rewrite ask_all_state. unfold RAGEngine.find_knowledge_gaps. simpl.
  rewrite !length_fmap.
  destruct (Nat.ltb_spec (length asks) 5) as [Hlt|Hge]; [done|].
  split; [|lia]. intros Hprompt. exfalso.
  unfold RAGEngine._identify_weak_areas in Hprompt.
  match type of Hprompt with
  | match ?l with [] => _ | _ :: _ => _ end = _ => destruct l as [|m ms] eqn:Hweak
  end; [done|].
  apply fmap_cons_inv in Hweak as ([w c] & rest & -> & _ & _).
  apply (f_equal (λ l, l !! 0%nat)) in Hprompt.
  cbn [lookup list_lookup] in Hprompt. apply (inj Some) in Hprompt.
  by apply (weak_area_message_distinct w c) in Hprompt.
Qed.

(** X17. [find_knowledge_gaps] returns between one and five messages.
    With five or more questions in the history it returns the
    no-weak-areas message exactly when no word longer than three
    characters occurs three times or more in the questions. *)
Theorem X17_no_weak_areas_iff_no_word_thrice {Collection : Type}
    (self : RAGEngine.t Collection) :
  let history := RAGEngine.query_history self in
  (1 ≤ length (RAGEngine.find_knowledge_gaps self) ≤ 5)%nat
  ∧ ((5 ≤ length history)%nat →
     RAGEngine.find_knowledge_gaps self = ["No specific weak areas identified yet"]
     ↔ ∀ w, (3 < len w)%nat → (occurrences w (history_words history) < 3)%nat).
Proof.
  intros history. unfold RAGEngine.find_knowledge_gaps. fold history.
  destruct (Nat.ltb_spec (length history) 5) as [Hshort|Hlong].
  { split; [simpl; lia|lia]. }
  set (table := RAGEngine._extract_common_topics self history).
  assert (counts (history_words history) table) as (Hnd & Hpos & Hget).
  { unfold table, RAGEngine._extract_common_topics.
    rewrite extract_as_count_words.
    apply (count_words_counts _ [] []).
    split; [constructor|]. split; [constructor|].
    intros w. simpl. by destruct (decide _). }
  pose proof (sorted_desc_perm snd table) as Hperm.
  pose proof (sorted_desc_sorted snd table) as Hsorted.
  unfold RAGEngine._identify_weak_areas.
  set (ranked := sorted_desc snd table) in *.
  set (kept := filter (λ tc : string * nat, (3 ≤ tc.2)%nat) (take 5 ranked)).
  assert (length kept ≤ 5)%nat as Hkept.
  { unfold kept. etrans; [apply length_filter|]. rewrite length_take. lia. }
  assert (kept = [] ↔
          ∀ w, (3 < len w)%nat → (occurrences w (history_words history) < 3)%nat)
    as Hempty.
  { split.
    - intros Hnone w Hw.
      destruct (decide (occurrences w (history_words history) < 3)%nat)
        as [|Hmany]; [done|]. exfalso.
      assert ((w, occurrences w (history_words history)) ∈ ranked) as Hin.
      { rewrite Hperm. apply elem_of_table; [done..|].
        rewrite Hget, decide_True by done. lia. }
      destruct (head_of_sorted ranked _ _ Hsorted Hin) as (top & rest & Hranked & Htop).
      assert (top ∈ kept) as Htopin.
      { unfold kept. rewrite Hranked. simpl. rewrite filter_cons.
        rewrite decide_True by lia. by left. }
      rewrite Hnone in Htopin. by apply elem_of_nil in Htopin.
    - intros Hfew. destruct kept as [|[w c] rest] eqn:Hk; [done|]. exfalso.
      assert ((w, c) ∈ kept) as Hin by (rewrite Hk; by left).
      unfold kept in Hin. apply list_elem_of_filter in Hin as [Hc Hin].
      apply elem_of_take in Hin as (i & Hin & _).
      apply list_elem_of_lookup_2 in Hin.
      rewrite Hperm in Hin. apply elem_of_table in Hin as [_ Hcount]; [|done..].
      rewrite Hget in Hcount. simpl in Hc.
      destruct (decide (3 < len w)%nat) as [Hw|]; [|lia].
      specialize (Hfew w Hw). lia. }
  rewrite <- Hempty. fold kept.
  destruct kept as [|[w c] rest] eqn:Hk.
  - simpl. split; [lia|]. by intros _.
  - rewrite fmap_cons. split; [simpl in *; rewrite length_fmap; lia|].
    intros _. split; [|done].
    intros Hfallback.
    apply (f_equal (λ l, l !! 0%nat)) in Hfallback.
    cbn [lookup list_lookup] in Hfallback. apply (inj Some) in Hfallback.
    by apply (weak_area_message_distinct w c) in Hfallback.
Qed.

Lemma X17_witness :
  RAGEngine.find_knowledge_gaps
    (Examples.engine [] ["what is osmosis"; "cells"; "why osmosis"; "walls";
                         "plant cells"])
  = ["No specific weak areas identified yet"].
Proof.
  apply (X17_no_weak_areas_iff_no_word_thrice
           (Examples.engine [] ["what is osmosis"; "cells"; "why osmosis"; "walls";
                                "plant cells"])).
  - simpl. lia.
  - intros w _.
    change (history_words _) with ["what"; "is"; "osmosis"; "cells"; "why";
                                   "osmosis"; "walls"; "plant"; "cells"].
    unfold occurrences.
    repeat (rewrite filter_cons; destruct (decide _) as [?|?];
            try subst w; try discriminate);
      simpl; lia.
Defined.

(** ** Generating questions *)

Section Generation.
Import QuizGenerator.

Lemma choice_total {A} (x : A) (l : list A) (g : rng) :
  ∃ y g', choice (x :: l) g = (Ok y, g') ∧ y ∈ x :: l.
Proof.
  unfold choice.
  pose proof (randbelow_lt (length (x :: l)) g ltac:(simpl; lia)) as Hlt.
  destruct (randbelow (length (x :: l)) g) as [i g0]. simpl in Hlt.
  destruct (lookup_lt_is_Some_2 (x :: l) i Hlt) as [y Hy].
  rewrite Hy. exists y, g0. split; [done|]. by eapply list_elem_of_lookup_2.
Qed.

Lemma rshuffle_total {A} (l : list A) (g : rng) :
  ∃ l' g', rshuffle l g = (Ok l', g').
Proof.
  unfold rshuffle. destruct (shuffle l g) as [l' g']. by exists l', g'.
Qed.

(** One round of the multiple-choice loop never raises, and skips the
    sentence exactly when it has no capitalized word. *)
Lemma multiple_choice_item_total (sentence : string) (g : rng) :
  ∃ q g', multiple_choice_item sentence g = (Ok q, g')
          ∧ (is_Some q ↔ findall_capitalized sentence ≠ []).
Proof.
  unfold multiple_choice_item.
  destruct (findall_capitalized sentence) as [|w ws].
  { exists None, g. split; [done|]. split; [by intros [??]|done]. }
  unfold mbind, Rand_bind, rbind.
  destruct (choice_total w ws g) as (key_term & g1 & -> & _).
  destruct (rshuffle_total
              ([key_term] ++ take 3 ["Option A"; "Option B"; "Option C"]) g1)
    as (options & g2 & Hshuffle).
  rewrite Hshuffle. apply rshuffle_keeps in Hshuffle as [_ Hin].
  assert (key_term ∈ options) as Hkey by (apply Hin; simpl; left).
  destruct (index_lookup key_term options Hkey) as (idx & Hidx & _).
  unfold lift. rewrite Hidx.
  eexists (Some _), g2. split; [reflexivity|]. split; [done|by eexists].
Qed.

Lemma short_answer_item_total (sentence : string) (g : rng) :
  ∃ q g', short_answer_item sentence g = (Ok q, g')
          ∧ (is_Some q ↔ (5 < length (split sentence))%nat).
Proof.
  unfold short_answer_item, mbind, Rand_bind, rbind, question_starters.
  destruct (choice_total "What is"
              ["How does"; "Why is"; "When did"; "Where is"; "Who was";
               "Which"; "Explain"; "Describe"; "Define"] g)
    as (starter & g1 & -> & _).
  destruct (Nat.ltb_spec 5 (length (split sentence))) as [Hlong|Hshort].
  - eexists (Some _), g1. split; [reflexivity|]. split; [done|by eexists].
  - exists None, g1. split; [done|]. split; [by intros [??]|lia].
Qed.

Lemma for_each_cons (body : nat → Rand (option Question)) (i : nat)
    (idxs : list nat) (questions : list Question) (g : rng) :
  for_each body (i :: idxs) questions g
  = match body i g with
    | (Ok q, g1) =>
        for_each body idxs
          (match q with Some q => questions ++ [q] | None => questions end) g1
    | (Raise e, g1) => (Raise e, g1)
    end.
Proof. reflexivity. Qed.

Lemma round_at {A} (item_body : string → Rand A) (sentences : list string)
    (i : nat) (sentence : string) (g : rng) :
  sentences !! i = Some sentence →
  (sentence ← lift (item sentences i); item_body sentence) g
  = item_body sentence g.
Proof.
  intros Hs. unfold mbind, Rand_bind, rbind, lift, item. by rewrite Hs.
Qed.

(** A loop whose rounds never raise returns, with one question for each
    sentence that a round does not skip. *)
Lemma for_each_filter (item_body : string → Rand (option Question))
    (keeps : string → Prop) `{!∀ s, Decision (keeps s)}
    (sentences : list string) (start k : nat)
    (questions : list Question) (g : rng) :
  (∀ s g, ∃ q g', item_body s g = (Ok q, g') ∧ (is_Some q ↔ keeps s)) →
  (start + k ≤ length sentences)%nat →
  ∃ qs g',
    for_each (λ i, sentence ← lift (item sentences i); item_body sentence)
      (seq start k) questions g
    = (Ok (questions ++ qs), g')
    ∧ length qs = length (filter keeps (take k (drop start sentences))).
Proof.
  intros Hbody. revert start questions g.
  induction k as [|k IH]; intros start questions g Hk.
  - exists [], g. simpl. by rewrite app_nil_r.
  - destruct (lookup_lt_is_Some_2 sentences start ltac:(lia)) as [sentence Hs].
    rewrite (drop_S _ _ _ Hs).
    change (seq start (S k)) with (start :: seq (S start) k).
    rewrite for_each_cons, (round_at _ _ _ _ _ Hs).
    destruct (Hbody sentence g) as (q & g1 & -> & Hq).
    change (take (S k) (sentence :: drop (S start) sentences))
      with (sentence :: take k (drop (S start) sentences)).
    rewrite filter_cons.
    destruct q as [q|].
    + destruct (IH (S start) (questions ++ [q]) g1 ltac:(lia))
        as (qs & g' & -> & Hlen).
      exists (q :: qs), g'. rewrite <- app_assoc. split; [done|].
      rewrite decide_True by (apply Hq; by eexists). simpl. by rewrite Hlen.
    + destruct (IH (S start) questions g1 ltac:(lia)) as (qs & g' & -> & Hlen).
      exists qs, g'. split; [done|].
      rewrite decide_False; [done|]. intros Hkeep. apply Hq in Hkeep.
      by destruct Hkeep.
Qed.

Lemma loop_range (n : Z) (sentences : list string) :
  range (loop_bound n sentences)
  = seq 0 (Z.to_nat n `min` length sentences)
  ∧ take (Z.to_nat n `min` length sentences) sentences
    = take (Z.to_nat n) sentences.
Proof.
  unfold range, loop_bound. split.
  - f_equal. lia.
  - destruct (Nat.min_spec (Z.to_nat n) (length sentences)) as [[_ ->]|[? ->]];
      [done|]. by rewrite !take_ge by lia.
Qed.

Lemma generate_multiple_choice_total (content : string) (n : Z) (g : rng) :
  ∃ qs g',
    _generate_multiple_choice content n g = (Ok qs, g')
    ∧ length qs
      = length (filter (λ sentence, findall_capitalized sentence ≠ [])
                       (take (Z.to_nat n) (candidate_sentences content))).
Proof.
  unfold _generate_multiple_choice.
  destruct (loop_range n (candidate_sentences content)) as [-> <-].
  destruct (for_each_filter multiple_choice_item
              (λ sentence, findall_capitalized sentence ≠ [])
              (candidate_sentences content) 0
              (Z.to_nat n `min` length (candidate_sentences content)) [] g
              multiple_choice_item_total ltac:(lia))
    as (qs & g' & Hrun & Hlen).
  exists qs, g'. rewrite drop_0 in Hlen. by split.
Qed.

Lemma generate_short_answer_total (content : string) (n : Z) (g : rng) :
  ∃ qs g',
    _generate_short_answer content n g = (Ok qs, g')
    ∧ length qs
      = length (filter (λ sentence, (5 < length (split sentence))%nat)
                       (take (Z.to_nat n) (candidate_sentences content))).
Proof.
  unfold _generate_short_answer.
  destruct (loop_range n (candidate_sentences content)) as [-> <-].
  destruct (for_each_filter short_answer_item
              (λ sentence, (5 < length (split sentence))%nat)
              (candidate_sentences content) 0
              (Z.to_nat n `min` length (candidate_sentences content)) [] g
              short_answer_item_total ltac:(lia))
    as (qs & g' & Hrun & Hlen).
  exists qs, g'. rewrite drop_0 in Hlen. by split.
Qed.

Lemma filter_take_bound {A} (P : A → Prop) `{!∀ x, Decision (P x)}
    (n : nat) (l : list A) :
  (length (filter P (take n l)) ≤ n)%nat.
Proof. etrans; [apply length_filter|]. rewrite length_take. lia. Qed.

End Generation.

(** X18. [_generate_multiple_choice] never raises, whatever the text,
    the requested number and the random draws.  It returns one question
    for each of the first [n] candidate sentences that has a capitalized
    word and skips the others, so it may return fewer questions than
    asked for. *)
Theorem X18_multiple_choice_skips_plain_sentences (content : string)
    (num_questions : Z) (g : rng) :
  let sentences := QuizGenerator.candidate_sentences content in
  ∃ qs g',
    QuizGenerator._generate_multiple_choice content num_questions g = (Ok qs, g')
    ∧ length qs
      = length (filter (λ sentence, findall_capitalized sentence ≠ [])
                       (take (Z.to_nat num_questions) sentences))
    ∧ (length qs ≤ Z.to_nat num_questions)%nat
    ∧ (length qs ≤ length sentences)%nat.
Proof.
  intros sentences.
  destruct (generate_multiple_choice_total content num_questions g)
    as (qs & g' & Hrun & Hlen).
  exists qs, g'. split; [done|]. split; [done|]. fold sentences in Hlen.
  rewrite Hlen. split; [apply filter_take_bound|].
  etrans; [apply length_filter|]. rewrite length_take. lia.
Qed.

(** The sentence without a capital is skipped: three sentences, two
    questions. *)
Example multiple_choice_on_three_sentences :
  ∃ qs g',
    QuizGenerator._generate_multiple_choice
      "Plants make sugar from light and water. every cell has a thin outer wall. The Sun feeds all of them."
      5 [0; 1; 2; 3; 4; 5; 6; 7; 8]%nat = (Ok qs, g')
    ∧ length qs = 2%nat.
Proof. eexists _, _. split; vm_compute; reflexivity. Qed.

(** X19. [_generate_short_answer] never raises.  It returns one
    question for each of the first [n] candidate sentences that has more
    than five words; the question is one of the ten starters followed by
    the first three words of the sentence in lower case and a question
    mark, and the sample answer is the sentence itself. *)
Theorem X19_short_answer_questions (content : string)
    (num_questions : Z) (g : rng) :
  let sentences := QuizGenerator.candidate_sentences content in
  ∃ qs g',
    QuizGenerator._generate_short_answer content num_questions g = (Ok qs, g')
    ∧ length qs
      = length (filter (λ sentence, (5 < length (split sentence))%nat)
                       (take (Z.to_nat num_questions) sentences))
    ∧ ∀ q, q ∈ qs →
        ∃ starter sentence,
          q = QuizGenerator.ShortAnswer
                (starter +:+ " " +:+ lower (join " " (take 3 (split sentence)))
                 +:+ "?")
                sentence
          ∧ starter ∈ QuizGenerator.question_starters
          ∧ sentence ∈ sentences
          ∧ (5 < length (split sentence))%nat.
Proof.
  intros sentences.
  destruct (generate_short_answer_total content num_questions g)
    as (qs & g' & Hrun & Hlen).
  exists qs, g'. split; [done|]. split; [done|].
  apply Forall_forall.
  unfold QuizGenerator._generate_short_answer in Hrun. fold sentences in Hrun.
  revert Hrun. apply for_each_invariant; [|constructor].
  intros i g0 q g1. unfold mbind, Rand_bind, rbind, lift, item.
  destruct (sentences !! i) as [sentence|] eqn:Hs; [|done].
  apply list_elem_of_lookup_2 in Hs.
  unfold QuizGenerator.short_answer_item, mbind, Rand_bind, rbind.
  destruct (choice QuizGenerator.question_starters g0)
    as [[starter|e] g2] eqn:Hchoice; [|done].
  apply choice_elem_of in Hchoice.
  destruct (Nat.ltb_spec 5 (length (split sentence))) as [Hlong|_]; [|done].
  intros [= <- _]. by exists starter, sentence.
Qed.

(** X20. When the retrieval finds documents, [generate_quiz] returns a
    quiz for every quiz type, every requested number and all random
    draws: it echoes the topic and the type, [num_questions] is the
    number of questions it holds, and for a requested number [n >= 0]
    that number is at most [n]. *)
Theorem X20_generate_quiz_returns_at_most_n {Collection : Type}
    {chroma : VectorStore.Chroma Collection}
    (self : QuizGenerator.t Collection) (topic : string) (num_questions : Z)
    (quiz_type : string) (g : rng) (found : VectorStore.results)
    (doc : string) (docs : list string) :
  VectorStore.search (QuizGenerator.vector_store self) topic 10 = Ok found →
  first (VectorStore.documents found) = Ok (doc :: docs) →
  ∃ quiz g',
    QuizGenerator.generate_quiz self topic num_questions quiz_type g
      = (Ok (QuizGenerator.QuizDict quiz), g')
    ∧ QuizGenerator.topic quiz = topic
    ∧ QuizGenerator.quiz_type quiz = quiz_type
    ∧ QuizGenerator.num_questions quiz = length (QuizGenerator.questions quiz)
    ∧ (0 ≤ num_questions →
       Z.of_nat (length (QuizGenerator.questions quiz)) ≤ num_questions).
Proof.
  intros Hsearch Hdocs.
  set (content := join " " (doc :: docs)).
  assert (∀ n g0, ∃ qs g', QuizGenerator._generate_multiple_choice content n g0
                           = (Ok qs, g') ∧ (length qs ≤ Z.to_nat n)%nat) as Hmc.
  { intros n g0.
    destruct (generate_multiple_choice_total content n g0) as (qs & g' & Hrun & Hlen).
    exists qs, g'. split; [done|]. rewrite Hlen. apply filter_take_bound. }
  assert (∀ n g0, ∃ qs g', QuizGenerator._generate_true_false content n g0
                           = (Ok qs, g') ∧ (length qs ≤ Z.to_nat n)%nat) as Htf.
  { intros n g0. eexists _, _. split; [apply generate_true_false_closed|].
    rewrite length_imap, length_take. lia. }
  assert (∀ n g0, ∃ qs g', QuizGenerator._generate_short_answer content n g0
                           = (Ok qs, g') ∧ (length qs ≤ Z.to_nat n)%nat) as Hsa.
  { intros n g0.
    destruct (generate_short_answer_total content n g0) as (qs & g' & Hrun & Hlen).
    exists qs, g'. split; [done|]. rewrite Hlen. apply filter_take_bound. }
  assert (∃ qs g',
            (if String.eqb quiz_type "multiple_choice"
             then QuizGenerator._generate_multiple_choice content num_questions
             else if String.eqb quiz_type "true_false"
             then QuizGenerator._generate_true_false content num_questions
             else if String.eqb quiz_type "short_answer"
             then QuizGenerator._generate_short_answer content num_questions
             else QuizGenerator._generate_mixed_quiz content num_questions) g
            = (Ok qs, g')
            ∧ (0 ≤ num_questions → Z.of_nat (length qs) ≤ num_questions))
    as (qs & g' & Hgen & Hbound).
  { destruct (String.eqb quiz_type "multiple_choice").
    { destruct (Hmc num_questions g) as (qs & g' & Hrun & Hlen).
      exists qs, g'. split; [done|lia]. }
    destruct (String.eqb quiz_type "true_false").
    { destruct (Htf num_questions g) as (qs & g' & Hrun & Hlen).
      exists qs, g'. split; [done|lia]. }
    destruct (String.eqb quiz_type "short_answer").
    { destruct (Hsa num_questions g) as (qs & g' & Hrun & Hlen).
      exists qs, g'. split; [done|lia]. }
    unfold QuizGenerator._generate_mixed_quiz, mbind, Rand_bind, rbind.
    destruct (Hmc (num_questions / 3) g) as (mc & g1 & -> & Hmclen).
    destruct (Htf (num_questions / 3) g1) as (tf & g2 & -> & Htflen).
    destruct (Hsa (num_questions - num_questions / 3 - num_questions / 3) g2)
      as (sa & g3 & -> & Hsalen).
    destruct (rshuffle_total (([] ++ mc) ++ tf ++ sa) g3) as (qs & g' & Hshuffle).
    exists qs, g'. split.
    - rewrite <- Hshuffle. f_equal. by rewrite <- !app_assoc.
    - intros Hn. apply rshuffle_keeps in Hshuffle as [-> _].
      rewrite !length_app. simpl.
      pose proof (Z.div_pos num_questions 3 Hn ltac:(lia)).
      pose proof (Z.mul_div_le num_questions 3 ltac:(lia)). lia. }
  unfold QuizGenerator.generate_quiz.
  unfold mbind at 1, Rand_bind, rbind, lift. rewrite Hsearch.
  unfold mbind at 1, Rand_bind, rbind. rewrite Hdocs.
  fold content. unfold mbind, Rand_bind, rbind. rewrite Hgen.
  eexists _, g'. split; [reflexivity|]. simpl. by repeat split.
Qed.

Lemma X20_witness :
  ∃ quiz g',
    QuizGenerator.generate_quiz (chroma := Examples.list_chroma)
      (QuizGenerator.mk
         (Examples.store ["Plants make sugar from light and water. The Sun feeds all of them."]))
      "plants" 2 "mixed" [4; 1; 3]%nat
    = (Ok (QuizGenerator.QuizDict quiz), g')
    ∧ Z.of_nat (length (QuizGenerator.questions quiz)) ≤ 2.
Proof.
  destruct (X20_generate_quiz_returns_at_most_n (chroma := Examples.list_chroma)
              (QuizGenerator.mk
                 (Examples.store ["Plants make sugar from light and water. The Sun feeds all of them."]))
              "plants" 2 "mixed" [4; 1; 3]%nat
              (VectorStore.mk_results
                 [["Plants make sugar from light and water. The Sun feeds all of them."]]
                 [[]])
              "Plants make sugar from light and water. The Sun feeds all of them." []
              eq_refl eq_refl)
    as (quiz & g' & Hrun & _ & _ & _ & Hbound).
  exists quiz, g'. split; [exact Hrun|]. apply Hbound. lia.
Defined.

(** ** Scores and grades *)

Section Scores.
Import QuizGenerator.

Lemma evaluate_loop_score (user_answers : gmap string string) (i : nat)
    (qs : list Question) (score : Z) (results : list Result) :
  fst (evaluate_loop user_answers i qs score results)
  = score + Z.of_nat (length (filter (λ r, is_correct r = true)
                                (imap (λ k, marked user_answers (i + k)) qs))).
Proof.
  revert i score results. induction qs as [|q qs IH]; intros i score results.
  - simpl. lia.
  - cbn [evaluate_loop]. rewrite IH.
    cbn [imap]. rewrite filter_cons, Nat.add_0_r.
    assert (imap ((λ k, marked user_answers (i + k)) ∘ S) qs
            = imap (λ k, marked user_answers (S i + k)) qs) as ->.
    { apply imap_ext. intros k x _. simpl. by rewrite Nat.add_succ_r. }
    destruct (decide (is_correct (marked user_answers i q) = true)) as [Hc|Hc];
      cbn [marked is_correct] in Hc.
    + rewrite Hc. simpl length. lia.
    + apply not_true_is_false in Hc. rewrite Hc. lia.
Qed.

(** What [evaluate_quiz] returns, field by field. *)
Lemma evaluate_quiz_closed (quiz : Quiz) (user_answers : gmap string string) :
  let marks := imap (marked user_answers) (questions quiz) in
  let correct := length (filter (λ r, is_correct r = true) marks) in
  let total := length (questions quiz) in
  ∃ ev pct,
    evaluate_quiz quiz user_answers = Ok ev
    ∧ ev = {| score := Z.of_nat correct;
              total_questions := total;
              percentage := pct;
              grade := _calculate_grade pct;
              results := marks |}
    ∧ pct = (if (0 <? total)%nat
             then (inject_Z (Z.of_nat correct) / inject_Z (Z.of_nat total) * 100)%Q
             else 0%Q).
Proof.
  intros marks correct total. unfold evaluate_quiz.
  pose proof (evaluate_loop_results user_answers 0 (questions quiz) 0 []) as Hres.
  pose proof (evaluate_loop_score user_answers 0 (questions quiz) 0 []) as Hscore.
  destruct (evaluate_loop user_answers 0 (questions quiz) 0 []) as [sc res].
  simpl in Hres, Hscore. subst sc res. fold marks correct total.
  destruct (Nat.ltb_spec 0 total) as [Hpos|Hzero].
  - rewrite truediv_nonzero by lia. eexists _, _. by repeat split.
  - eexists _, _. by repeat split.
Qed.

Lemma reference_answers_lookup (quiz : Quiz) (i : nat) (question : Question) :
  questions quiz !! i = Some question →
  reference_answers quiz !! str i = Some (reference_answer question).
Proof.
  intros Hq. unfold reference_answers.
  apply elem_of_list_to_map.
  - assert ((imap (λ j question, (str j, reference_answer question))
                  (questions quiz)).*1
            = str <$> seq 0 (length (questions quiz))) as ->.
    { apply list_eq. intros j.
      rewrite !list_lookup_fmap, list_lookup_imap.
      destruct (questions quiz !! j) as [q|] eqn:Hj; simpl.
      - by rewrite lookup_seq_lt by (by eapply lookup_lt_Some).
      - rewrite lookup_seq_ge; [done|]. by apply lookup_ge_None. }
    apply NoDup_fmap_2; [|apply NoDup_seq].
    unfold str. apply _.
  - apply list_elem_of_lookup. exists i.
    by rewrite list_lookup_imap, Hq.
Qed.

(** A reference answer is accepted for its own question. *)
Lemma reference_answer_is_correct (question : Question) :
  check_answer question (reference_answer question) = true.
Proof.
  destruct question as [text options correct|text correct|text sample]; simpl.
  - apply String.eqb_refl.
  - apply String.eqb_refl.
  - unfold _evaluate_short_answer.
    rewrite key_words_as_set, key_words_length. apply thirty_percent.
    assert (word_set sample
              ∩ filter (λ word, (3 < len word)%nat) (word_set sample)
            = filter (λ word, (3 < len word)%nat) (word_set sample)) as ->.
    { apply set_eq. intros w. rewrite elem_of_intersection, elem_of_filter. tauto. }
    lia.
Qed.

(** An empty answer is wrong for a question that needs one. *)
Lemma empty_answer_is_wrong (question : Question) :
  needs_an_answer question → check_answer question "" = false.
Proof.
  destruct question as [text options correct|text correct|text sample]; simpl.
  - intros Hne. by destruct correct.
  - intros Hne. by destruct correct.
  - intros Hkeys. apply not_true_is_false. intros Hcorrect.
    unfold _evaluate_short_answer in Hcorrect.
    rewrite key_words_as_set, key_words_length in Hcorrect.
    apply thirty_percent in Hcorrect.
    assert (word_set ""
              ∩ filter (λ word, (3 < len word)%nat) (word_set sample)
            = (∅ : gset string)) as Hnone.
    { apply set_eq. intros w.
      rewrite elem_of_intersection, elem_of_empty.
      unfold word_set at 1. simpl. rewrite elem_of_empty. tauto. }
    rewrite Hnone, size_empty in Hcorrect.
    apply Hkeys. unfold keyword_set.
    apply leibniz_equiv, size_empty_inv. lia.
Qed.

End Scores.

(** X21. [evaluate_quiz] never raises.  It returns one result per
    question, in order, each holding the answer found under the
    question's index (the empty string when there is none); the score is
    the number of results marked correct, it lies between 0 and the
    number of questions, the percentage lies between 0 and 100, and the
    grade is the grade of that percentage. *)
Theorem X21_score_counts_the_correct_results (quiz : QuizGenerator.Quiz)
    (user_answers : gmap string string) :
  ∃ ev,
    QuizGenerator.evaluate_quiz quiz user_answers = Ok ev
    ∧ QuizGenerator.total_questions ev = length (QuizGenerator.questions quiz)
    ∧ QuizGenerator.results ev
      = imap (marked user_answers) (QuizGenerator.questions quiz)
    ∧ QuizGenerator.score ev
      = Z.of_nat (length (filter (λ r, QuizGenerator.is_correct r = true)
                            (QuizGenerator.results ev)))
    ∧ 0 ≤ QuizGenerator.score ev ≤ Z.of_nat (QuizGenerator.total_questions ev)
    ∧ (0 <= QuizGenerator.percentage ev)%Q
    ∧ (QuizGenerator.percentage ev <= 100)%Q
    ∧ QuizGenerator.grade ev
      = QuizGenerator._calculate_grade (QuizGenerator.percentage ev).
Proof.
  destruct (evaluate_quiz_closed quiz user_answers) as (ev & pct & Hrun & -> & Hpct).
  eexists. split; [exact Hrun|]. simpl.
  set (marks := imap (marked user_answers) (QuizGenerator.questions quiz)) in *.
  set (correct := length (filter (λ r, QuizGenerator.is_correct r = true) marks)) in *.
  set (total := length (QuizGenerator.questions quiz)) in *.
  assert (correct ≤ total)%nat as Hle.
  { unfold correct, total. etrans; [apply length_filter|].
    unfold marks. by rewrite length_imap. }
  split; [done|]. split; [done|]. split; [done|]. split; [lia|].
  assert ((0 <= pct)%Q ∧ (pct <= 100)%Q) as [? ?]; [|by repeat split].
  rewrite Hpct. destruct (Nat.ltb_spec 0 total) as [Hpos|_].
  - assert (0 < inject_Z (Z.of_nat total))%Q as Htotal
      by (change 0%Q with (inject_Z 0); rewrite <- Zlt_Qlt; lia).
    assert (0 <= inject_Z (Z.of_nat correct))%Q as Hcorrect
      by (change 0%Q with (inject_Z 0); rewrite <- Zle_Qle; lia).
    assert (inject_Z (Z.of_nat correct) <= inject_Z (Z.of_nat total))%Q as Hct
      by (rewrite <- Zle_Qle; lia).
    assert (0 <= inject_Z (Z.of_nat correct) / inject_Z (Z.of_nat total))%Q as H0.
    { apply Qle_shift_div_l; [done|]. lra. }
    assert (inject_Z (Z.of_nat correct) / inject_Z (Z.of_nat total) <= 1)%Q as H1.
    { apply Qle_shift_div_r; [done|]. lra. }
    split; lra.
  - split; lra.
Qed.

Section Sheets.
Import QuizGenerator.

Lemma filter_all {A} (P : A → Prop) `{!∀ x, Decision (P x)} (l : list A) :
  Forall P l → filter P l = l.
Proof.
  induction 1 as [|x l Hx _ IH]; [done|].
  rewrite filter_cons, decide_True by done. by rewrite IH.
Qed.

Lemma filter_none {A} (P : A → Prop) `{!∀ x, Decision (P x)} (l : list A) :
  Forall (λ x, ¬ P x) l → filter P l = [].
Proof.
  induction 1 as [|x l Hx _ IH]; [done|].
  by rewrite filter_cons, decide_False.
Qed.

(** Every result of a sheet has the mark that the sheet earns question
    by question. *)
Lemma marks_all (user_answers : gmap string string) (qs : list Question)
    (mark : bool) :
  (∀ i q, qs !! i = Some q →
          check_answer q (default "" (user_answers !! str i)) = mark) →
  Forall (λ r, is_correct r = mark) (imap (marked user_answers) qs).
Proof.
  intros Hmark. apply Forall_lookup. intros i r Hr.
  rewrite list_lookup_imap in Hr.
  destruct (qs !! i) as [q|] eqn:Hq; [|done].
  simpl in Hr. simplify_eq. simpl. by apply Hmark.
Qed.

Lemma grade_of_full_marks (pct : Q) :
  (pct == 100)%Q → _calculate_grade pct = "A".
Proof.
  intros Hpct. unfold _calculate_grade.
  assert (Qle_bool 90 pct = true) as -> by (apply Qle_bool_iff; lra). done.
Qed.

Lemma grade_of_no_marks (pct : Q) :
  (pct == 0)%Q → _calculate_grade pct = "F".
Proof.
  intros Hpct. unfold _calculate_grade.
  assert (∀ bound, (0 < bound)%Q → Qle_bool bound pct = false) as Hbelow.
  { intros bound Hb. apply not_true_is_false. rewrite Qle_bool_iff. lra. }
  by rewrite !Hbelow by lra.
Qed.

End Sheets.

(** X22. A sheet that answers every question of a non-empty quiz with
    the question's own reference answer (the recorded letter or label,
    or the sample answer) gets every question right: the score is the
    number of questions, the percentage is 100 and the grade is "A". *)
Theorem X22_reference_answers_score_full_marks (quiz : QuizGenerator.Quiz) :
  QuizGenerator.questions quiz ≠ [] →
  ∃ ev,
    QuizGenerator.evaluate_quiz quiz (reference_answers quiz) = Ok ev
    ∧ QuizGenerator.score ev = Z.of_nat (length (QuizGenerator.questions quiz))
    ∧ (QuizGenerator.percentage ev == 100)%Q
    ∧ QuizGenerator.grade ev = "A".
Proof.
  intros Hne.
  destruct (evaluate_quiz_closed quiz (reference_answers quiz))
    as (ev & pct & Hrun & -> & Hpct).
  eexists. split; [exact Hrun|]. simpl.
  assert (Forall (λ r, QuizGenerator.is_correct r = true)
            (imap (marked (reference_answers quiz)) (QuizGenerator.questions quiz)))
    as Hright.
  { apply marks_all. intros i q Hq.
    rewrite (reference_answers_lookup quiz i q Hq).
    apply reference_answer_is_correct. }
  rewrite (filter_all _ _ Hright) in Hpct |- *.
  rewrite length_imap in Hpct |- *.
  split; [done|].
  assert (0 < length (QuizGenerator.questions quiz))%nat as Hpos
    by (destruct (QuizGenerator.questions quiz); [done|simpl; lia]).
  assert (pct == 100)%Q as H100.
  { rewrite Hpct. destruct (Nat.ltb_spec 0 (length (QuizGenerator.questions quiz)));
      [|lia].
    assert (0 < inject_Z (Z.of_nat (length (QuizGenerator.questions quiz))))%Q
      by (change 0%Q with (inject_Z 0); rewrite <- Zlt_Qlt; lia).
    field. lra. }
  split; [done|]. by apply grade_of_full_marks.
Qed.

Lemma X22_witness :
  ∃ ev,
    QuizGenerator.evaluate_quiz
      {| QuizGenerator.topic := "cells";
         QuizGenerator.num_questions := 2;
         QuizGenerator.questions :=
           [ QuizGenerator.TrueFalse "True or False: every cell has a wall" "False";
             QuizGenerator.ShortAnswer "What is a membrane?"
               "A membrane is a thin layer around the cell" ];
         QuizGenerator.quiz_type := "mixed" |}
      (<["0" := "False"]>
         (<["1" := "A membrane is a thin layer around the cell"]> ∅))
    = Ok ev
    ∧ QuizGenerator.score ev = 2
    ∧ QuizGenerator.grade ev = "A".
Proof.
  destruct (X22_reference_answers_score_full_marks
              {| QuizGenerator.topic := "cells";
                 QuizGenerator.num_questions := 2;
                 QuizGenerator.questions :=
                   [ QuizGenerator.TrueFalse "True or False: every cell has a wall"
                       "False";
                     QuizGenerator.ShortAnswer "What is a membrane?"
                       "A membrane is a thin layer around the cell" ];
                 QuizGenerator.quiz_type := "mixed" |} ltac:(discriminate))
    as (ev & Hrun & Hscore & _ & Hgrade).
  exists ev. split; [|by split].
  rewrite <- Hrun. reflexivity.
Defined.

(** X23. The grade never gets worse when the percentage grows. *)
Theorem X23_grade_is_monotone (p q : Q) :
  (p <= q)%Q →
  (grade_rank (QuizGenerator._calculate_grade p)
   ≤ grade_rank (QuizGenerator._calculate_grade q))%nat.
Proof.
  intros Hpq. unfold QuizGenerator._calculate_grade.
  assert (∀ bound, Qle_bool bound p = true → Qle_bool bound q = true) as Hup.
  { intros bound Hb. apply Qle_bool_iff. apply Qle_bool_iff in Hb. lra. }
  destruct (Qle_bool 90 p) eqn:P90, (Qle_bool 80 p) eqn:P80,
           (Qle_bool 70 p) eqn:P70, (Qle_bool 60 p) eqn:P60,
           (Qle_bool 90 q) eqn:Q90, (Qle_bool 80 q) eqn:Q80,
           (Qle_bool 70 q) eqn:Q70, (Qle_bool 60 q) eqn:Q60;
    try (vm_compute; lia);
    repeat match goal with
           | H : Qle_bool _ p = true |- _ => apply Hup in H
           end;
    congruence.
Qed.

Lemma X23_witness :
  (grade_rank (QuizGenerator._calculate_grade (7999 # 100))
   ≤ grade_rank (QuizGenerator._calculate_grade 80))%nat.
Proof. apply X23_grade_is_monotone. unfold Qle. simpl. lia. Defined.

(** X24. A sheet without answers earns nothing on a quiz whose
    questions all need one (a recorded letter or label that is not
    empty, a sample answer with a word longer than three characters):
    every result holds the empty answer and is marked wrong, the score
    and the percentage are 0 and the grade is "F". *)
Theorem X24_unanswered_quiz_scores_nothing (quiz : QuizGenerator.Quiz) :
  Forall needs_an_answer (QuizGenerator.questions quiz) →
  ∃ ev,
    QuizGenerator.evaluate_quiz quiz ∅ = Ok ev
    ∧ Forall (λ r, QuizGenerator.user_answer r = ""
                   ∧ QuizGenerator.is_correct r = false)
             (QuizGenerator.results ev)
    ∧ QuizGenerator.score ev = 0
    ∧ (QuizGenerator.percentage ev == 0)%Q
    ∧ QuizGenerator.grade ev = "F".
Proof.
  intros Hneed.
  destruct (evaluate_quiz_closed quiz ∅) as (ev & pct & Hrun & -> & Hpct).
  eexists. split; [exact Hrun|]. simpl.
  assert (Forall (λ r, QuizGenerator.is_correct r = false)
            (imap (marked ∅) (QuizGenerator.questions quiz))) as Hwrong.
  { apply marks_all. intros i q Hq. rewrite lookup_empty. simpl.
    apply empty_answer_is_wrong.
    rewrite Forall_forall in Hneed. apply Hneed.
    by eapply list_elem_of_lookup_2. }
  assert (Forall (λ r, ¬ QuizGenerator.is_correct r = true)
            (imap (marked ∅) (QuizGenerator.questions quiz))) as Hnot.
  { eapply Forall_impl; [exact Hwrong|]. simpl. intros r Hr. congruence. }
  rewrite (filter_none _ _ Hnot) in Hpct |- *.
  split.
  { apply Forall_lookup. intros i r Hr.
    split; [|by eapply (proj1 (Forall_lookup _ _) Hwrong)].
    rewrite list_lookup_imap in Hr.
    destruct (QuizGenerator.questions quiz !! i); [|done].
    simpl in Hr. simplify_eq. simpl. by rewrite lookup_empty. }
  split; [done|].
  assert (pct == 0)%Q as H0.
  { rewrite Hpct. simpl. destruct (0 <? _)%nat; [|reflexivity].
    unfold Qeq. simpl. lia. }
  split; [done|]. by apply grade_of_no_marks.
Qed.

Lemma X24_witness :
  ∃ ev,
    QuizGenerator.evaluate_quiz
      {| QuizGenerator.topic := "cells";
         QuizGenerator.num_questions := 2;
         QuizGenerator.questions :=
           [ QuizGenerator.TrueFalse "True or False: every cell has a wall" "False";
             QuizGenerator.ShortAnswer "What is a membrane?"
               "A membrane is a thin layer around the cell" ];
         QuizGenerator.quiz_type := "mixed" |} ∅
    = Ok ev
    ∧ QuizGenerator.score ev = 0
    ∧ QuizGenerator.grade ev = "F".
Proof.
  destruct (X24_unanswered_quiz_scores_nothing
              {| QuizGenerator.topic := "cells";
                 QuizGenerator.num_questions := 2;
                 QuizGenerator.questions :=
                   [ QuizGenerator.TrueFalse "True or False: every cell has a wall"
                       "False";
                     QuizGenerator.ShortAnswer "What is a membrane?"
                       "A membrane is a thin layer around the cell" ];
                 QuizGenerator.quiz_type := "mixed" |})
    as (ev & Hrun & _ & Hscore & _ & Hgrade).
  - repeat constructor; [discriminate|].
    simpl. intros Hempty.
    assert ("membrane" ∈ keyword_set "A membrane is a thin layer around the cell")
      as Hin by (by vm_compute).
    rewrite Hempty in Hin. by apply elem_of_empty in Hin.
  - exists ev. by repeat split.
Defined.

(** ** Cleaning a text *)

Section Cleaning.

Lemma chars_rev_app (s acc : string) :
  chars (String.rev_app s acc) = reverse (chars s) ++ chars acc.
Proof.
  revert acc. induction s as [|c s IH]; intros acc; [done|].
  cbn [String.rev_app chars]. rewrite IH, reverse_cons. cbn [chars].
  by rewrite <- app_assoc.
Qed.

Lemma chars_rev (s : string) : chars (String.rev s) = reverse (chars s).
Proof. unfold String.rev. rewrite chars_rev_app. cbn [chars]. by rewrite app_nil_r. Qed.

Lemma lstrip_head (s : string) (c : ascii) :
  head (chars (lstrip s)) = Some c → isspace c = false.
Proof.
  induction s as [|d s IH]; [done|]. cbn [lstrip].
  destruct (isspace d) eqn:Hd; [done|].
  cbn [chars head]. by intros [= <-].
Qed.

Lemma lstrip_last (s : string) (c : ascii) :
  last (chars (lstrip s)) = Some c → last (chars s) = Some c.
Proof.
  induction s as [|d s IH]; [done|]. cbn [lstrip].
  destruct (isspace d) eqn:Hd; [|done].
  intros Hc. apply IH in Hc. cbn [chars]. rewrite last_cons. by rewrite Hc.
Qed.

Lemma lstrip_Forall (P : ascii → Prop) (s : string) :
  Forall P (chars s) → Forall P (chars (lstrip s)).
Proof.
  induction s as [|d s IH]; [done|]. cbn [lstrip].
  destruct (isspace d); [|done].
  cbn [chars]. intros H. apply IH. by apply Forall_cons in H as [_ H].
Qed.

Lemma collapse_whitespace_blanks (s : string) :
  Forall (λ c, isspace c = true → c = " "%char) (chars (collapse_whitespace s)).
Proof.
  induction s as [|c s IH]; [constructor|].
  cbn [collapse_whitespace].
  destruct (isspace c) eqn:Hc.
  - destruct s as [|d s]; [by repeat constructor|].
    destruct (isspace d); [done|].
    cbn [chars]. by constructor.
  - cbn [chars]. constructor; [congruence|done].
Qed.

Lemma keep_chars_Forall (P : ascii → Prop) (keep : ascii → bool) (s : string) :
  Forall P (chars s) →
  Forall (λ c, keep c = true ∧ P c) (chars (keep_chars keep s)).
Proof.
  induction s as [|c s IH]; [constructor|].
  cbn [chars keep_chars]. intros [Hc Hs]%Forall_cons.
  destruct (keep c) eqn:Hk; [|by apply IH].
  cbn [chars]. constructor; [done|by apply IH].
Qed.

Lemma clean_char_printed (c : ascii) :
  DocumentProcessor.clean_char c = true →
  (isspace c = true → c = " "%char) →
  printed_char c.
Proof.
  unfold DocumentProcessor.clean_char, printed_char. intros Hc Hblank.
  apply orb_true_iff in Hc as [Hc|Hc]; [apply orb_true_iff in Hc as [Hc|Hc]|].
  - by left.
  - right. rewrite (Hblank Hc). by left.
  - right. apply bool_decide_eq_true in Hc. by right.
Qed.

End Cleaning.

(** X25. Whatever the text holds, the cleaned text is made of word
    characters, blanks and the punctuation marks . , ! ? ; : - ( ) only:
    tabs, line ends and every other whitespace have become blanks, and
    the cleaned text neither starts nor ends with a blank. *)
Theorem X25_clean_text_characters (text : string) :
  let cleaned := chars (DocumentProcessor._clean_text text) in
  Forall printed_char cleaned
  ∧ (∀ c, head cleaned = Some c → isspace c = false)
  ∧ (∀ c, last cleaned = Some c → isspace c = false).
Proof.
  intros cleaned. unfold cleaned, DocumentProcessor._clean_text, strip.
  rewrite chars_rev.
  set (kept := keep_chars DocumentProcessor.clean_char (collapse_whitespace text)).
  split; [|split].
  - apply Forall_reverse, lstrip_Forall. rewrite chars_rev.
    apply Forall_reverse, lstrip_Forall.
    eapply Forall_impl;
      [apply keep_chars_Forall, collapse_whitespace_blanks|].
    intros c [Hc Hblank]. by apply clean_char_printed.
  - intros c. rewrite head_reverse. intros Hc%lstrip_last.
    rewrite chars_rev, last_reverse in Hc. by apply lstrip_head in Hc.
  - intros c. rewrite last_reverse. apply lstrip_head.
Qed.

(** ** An answer under a difficulty level *)

(** X26. A [query] with a difficulty level answers from the filtered
    documents, not from what the store found: on search results that
    carry a metadata record for every document the sources are the
    documents in the band of the level with their metadata, the
    response is the not-found message when no document is in the band
    and is otherwise built from the first three documents in the band,
    and two follow-up actions are suggested. *)
Theorem X26_query_answers_from_the_filtered_documents {Collection : Type}
    {chroma : VectorStore.Chroma Collection} {punkt : DifficultyAssessor.Punkt}
    (self : RAGEngine.t Collection) (question : string) (n_results : Z)
    (level : string) (found : VectorStore.results)
    (docs : list string) (metas : list VectorStore.metadata) :
  level ≠ EmptyString →
  VectorStore.search (RAGEngine.vector_store self) question n_results = Ok found →
  first (VectorStore.documents found) = Ok docs →
  first (VectorStore.metadatas found) = Ok metas →
  (length docs ≤ length metas)%nat →
  let kept :=
    filter (λ p, RAGEngine._matches_difficulty_level self
                   (difficulty_of (RAGEngine.difficulty_assessor self) p.1) level
                 = true)
           (zip docs metas) in
  ∃ answer,
    (RAGEngine.query question n_results (Some level) self).2 = Ok answer
    ∧ RAGEngine.answer_question answer = question
    ∧ RAGEngine.sources answer
      = {| VectorStore.documents := [kept.*1];
           VectorStore.metadatas := [kept.*2] |}
    ∧ (kept = [] →
       RAGEngine.response answer
       = "I couldn't find relevant information in your study materials. Try uploading more documents or rephrasing your question.")
    ∧ (kept ≠ [] →
       RAGEngine.response answer
       = "Based on your study materials:" +:+ nl +:+ nl +:+
         prefix_of 500 (join " " (take 3 kept.*1)) +:+ "...")
    ∧ length (RAGEngine.suggested_actions answer) = 2%nat.
Proof.
  intros Hlevel Hsearch Hdocs Hmetas Hlen kept.
  unfold RAGEngine.query, RAGEngine.and_then, RAGEngine.history_append,
    RAGEngine.reads.
  cbn [RAGEngine.vector_store]. rewrite Hsearch.
  assert (RAGEngine.truthy (Some level) = Some level) as ->
    by (by destruct level).
  set (self' := RAGEngine.mk _ _ _ _).
  pose proof (filter_by_difficulty_closed self' found level docs metas
                Hdocs Hmetas Hlen) as Hfilter.
  cbn zeta in Hfilter. change (filter _ (zip docs metas)) with kept in Hfilter.
  rewrite Hfilter.
  unfold RAGEngine._generate_response.
  cbn [VectorStore.documents first mbind PyResult_bind Py.bind].
  destruct kept as [|p kept'] eqn:Hkept.
  - eexists. split; [reflexivity|]. cbn [RAGEngine.answer_question
      RAGEngine.sources RAGEngine.response RAGEngine.suggested_actions].
    repeat split; try done.
    unfold RAGEngine._suggest_actions. by repeat case_match.
  - eexists. split; [reflexivity|]. cbn [RAGEngine.answer_question
      RAGEngine.sources RAGEngine.response RAGEngine.suggested_actions].
    repeat split; try done.
    unfold RAGEngine._suggest_actions. by repeat case_match.
Qed.

Lemma X26_witness :
  ∃ answer,
    (RAGEngine.query (chroma := Examples.indexed_chroma) (punkt := Examples.dot_punkt)
       "what is a cat" 3 (Some "advanced") (Examples.engine ["Cats purr."] [])).2
    = Ok answer
    ∧ RAGEngine.response answer
      = "I couldn't find relevant information in your study materials. Try uploading more documents or rephrasing your question.".
Proof.
  destruct (X26_query_answers_from_the_filtered_documents
              (chroma := Examples.indexed_chroma) (punkt := Examples.dot_punkt)
              (Examples.engine ["Cats purr."] []) "what is a cat" 3 "advanced"
              (VectorStore.mk_results [["Cats purr."]]
                 [[Examples.meta "notes.txt" 0 2]])
              ["Cats purr."] [Examples.meta "notes.txt" 0 2]
              ltac:(discriminate) eq_refl eq_refl eq_refl ltac:(simpl; lia))
    as (answer & Hrun & _ & _ & Hnone & _).
  exists answer. split; [exact Hrun|]. apply Hnone. vm_compute. reflexivity.
Defined.
